(** * kankun_habitaciones_restapi: the /habitaciones handlers

    A shallow embedding of the two Express applications of the repository:
    the variant with validation and pre-checks (module [Strict]) and
    [habitaciones.js] (module [Lenient]).  Every route handler is a small
    program that talks to the remote store through five calls and ends with
    one HTTP response. *)

From Stdlib Require Import ZArith NArith QArith List Ascii String Bool Lia.
Import ListNotations.

Local Open Scope Z_scope.

(** ** The JavaScript values the handlers look at *)

Module Js.

(** A JavaScript string: its UTF-16 code units.  [str] writes one from ASCII
    text. *)
Definition jsstring := list N.

Definition str (s : string) : jsstring :=
  map (fun b => N_of_ascii b) (list_ascii_of_string s).

(** A JavaScript number.  A finite double is represented by the rational it
    denotes; both zeros are [Finite 0]. *)
Inductive number :=
| NaN
| NegInfinity
| Finite (q : Q)
| PosInfinity.

Definition num (z : Z) : number := Finite (inject_Z z).

(** A value found in [req.body] after [express.json()]: a missing key reads
    as [VUndefined].  An object or an array is kept as the string its
    conversion to a primitive gives. *)
Inductive value :=
| VUndefined
| VNull
| VBool (b : bool)
| VNumber (n : number)
| VString (s : jsstring)
| VObject (prim : jsstring).

Inductive js_type := TUndefined | TObject | TBoolean | TNumber | TString.

Definition typeof (v : value) : js_type :=
  match v with
  | VUndefined => TUndefined
  | VNull => TObject
  | VBool _ => TBoolean
  | VNumber _ => TNumber
  | VString _ => TString
  | VObject _ => TObject
  end.

Definition js_type_eqb (a b : js_type) : bool :=
  match a, b with
  | TUndefined, TUndefined | TObject, TObject | TBoolean, TBoolean
  | TNumber, TNumber | TString, TString => true
  | _, _ => false
  end.

Definition number_isNaN (n : number) : bool :=
  match n with NaN => true | _ => false end.

Definition number_is_zero (n : number) : bool :=
  match n with Finite q => Qeq_bool q 0 | _ => false end.

(** [n <= 0] on numbers; a comparison with NaN is false. *)
Definition number_le_zero (n : number) : bool :=
  match n with
  | NaN => false
  | NegInfinity => true
  | Finite q => Qle_bool q 0
  | PosInfinity => false
  end.

(** ToBoolean. *)
Definition truthy (v : value) : bool :=
  match v with
  | VUndefined => false
  | VNull => false
  | VBool b => b
  | VNumber n => negb (number_isNaN n || number_is_zero n)
  | VString s => match s with [] => false | _ => true end
  | VObject _ => true
  end.

(** [v === undefined] *)
Definition is_undefined (v : value) : bool :=
  match v with VUndefined => true | _ => false end.

Section Coercion.

(** The conversion of a string to a number (StringToNumber) is left to
    the runtime: the handlers are stated for any such conversion. *)
Variable StringToNumber : jsstring -> number.

(** ToNumber. *)
Definition ToNumber (v : value) : number :=
  match v with
  | VUndefined => NaN
  | VNull => Finite 0
  | VBool b => if b then Finite 1 else Finite 0
  | VNumber n => n
  | VString s => StringToNumber s
  | VObject prim => StringToNumber prim
  end.

(** The global [isNaN(v)]. *)
Definition isNaN (v : value) : bool := number_isNaN (ToNumber v).

(** [v <= 0] *)
Definition le_zero (v : value) : bool := number_le_zero (ToNumber v).

End Coercion.

(** *** [parseInt(s, 10)] *)

(** White space and line terminators, as [parseInt] skips them. *)
Definition is_white_space (c : N) : bool :=
  ((c =? 9) || (c =? 10) || (c =? 11) || (c =? 12) || (c =? 13) || (c =? 32)
   || (c =? 160) || (c =? 5760) || ((8192 <=? c) && (c <=? 8202))
   || (c =? 8232) || (c =? 8233) || (c =? 8239) || (c =? 8287)
   || (c =? 12288) || (c =? 65279))%N.

Definition is_digit (c : N) : bool := ((48 <=? c) && (c <=? 57))%N.

Fixpoint skip_white_space (s : jsstring) : jsstring :=
  match s with
  | c :: rest => if is_white_space c then skip_white_space rest else s
  | [] => []
  end.

(** The longest prefix of decimal digits. *)
Fixpoint leading_digits (s : jsstring) : jsstring :=
  match s with
  | c :: rest => if is_digit c then c :: leading_digits rest else []
  | [] => []
  end.

Definition digits_value (ds : jsstring) : Z :=
  fold_left (fun acc c => 10 * acc + (Z.of_N c - 48)) ds 0.

(** [parseInt(s, 10)]: leading white space is dropped, one sign is read, and
    the digits up to the first other character are the result, whatever
    follows them; with no digit there the result is NaN.  The result is kept
    as the integer read: the double nearest to it is NaN, zero, negative or
    positive exactly when the integer is, which is all the handlers test,
    and up to 2^53 it is the integer itself. *)
Definition parseInt (s : jsstring) : number :=
  let trimmed := skip_white_space s in
  let '(sign, rest) :=
    match trimmed with
    | c :: tl =>
        if (c =? 45)%N then (-1, tl)
        else if (c =? 43)%N then (1, tl)
        else (1, trimmed)
    | [] => (1, trimmed)
    end in
  match leading_digits rest with
  | [] => NaN
  | ds => num (sign * digits_value ds)
  end.

End Js.

(** ** The remote store, as the handlers see it *)

Module Store.
Import Js.

(** The object literal [{ num_habi, tipo, capacidad, precio, estado }] that
    [insert] and [update] are given: the five values read from [req.body]. *)
Record payload := mk_payload {
  num_habi : value;
  tipo : value;
  capacidad : value;
  precio : value;
  estado : value }.

(** A row of the table [habitaciones]. *)
Record habitacion := mk_habitacion {
  habitacion_id : Z;
  columns : payload }.

Inductive column := col_habitacion_id | col_num_habi.

(** [.eq(column, operand)] *)
Record filter := eq_filter {
  filter_column : column;
  operand : value }.

(** The [error] object of a reply; the handlers read its [message]. *)
Record store_error := mk_error { message : string }.

(** What an awaited store call resolves to: [{ data, error }], each of the
    two possibly null. *)
Record reply (A : Type) := mk_reply {
  data : option A;
  error : option store_error }.
Arguments mk_reply {A} _ _.
Arguments data {A} _.
Arguments error {A} _.

(** The body of a response. *)
Inductive res_body :=
| JsonError (msg : string)                 (* [.json({ error: msg })] *)
| JsonRows (d : option (list habitacion))  (* [.json(data)], a collection or null *)
| JsonRow (d : option habitacion)          (* [.json(data)], one row or null *)
| NoBody.                                  (* [.send()] *)

Record response := mk_response {
  status : Z;
  body : res_body }.

(** A route handler: the store calls it awaits, each with the rest of the
    handler as its continuation, and the response it ends with. *)
Inductive handler :=
| Respond (r : response)
| SelectAll (k : reply (list habitacion) -> handler)
| SelectSingle (f : filter) (k : reply habitacion -> handler)
| InsertSingle (p : payload) (k : reply habitacion -> handler)
| UpdateSingle (p : payload) (f : filter) (k : reply habitacion -> handler)
| DeleteWhere (f : filter) (k : reply unit -> handler).

Notation "'await' r '<-' c ';' k" := (c (fun r => k))
  (at level 10, r name, c at level 10, k at level 200).

(** [res.status(code).json({ error: msg })] *)
Definition json_error (code : Z) (msg : string) : handler :=
  Respond (mk_response code (JsonError msg)).

(** The store calls a request makes, in the order it makes them. *)
Inductive store_call :=
| CallSelectAll
| CallSelectSingle (f : filter)
| CallInsertSingle (p : payload)
| CallUpdateSingle (p : payload) (f : filter)
| CallDeleteWhere (f : filter).

(** Whether a call can change the stored collection. *)
Definition is_mutation (c : store_call) : bool :=
  match c with
  | CallSelectAll | CallSelectSingle _ => false
  | CallInsertSingle _ | CallUpdateSingle _ _ | CallDeleteWhere _ => true
  end.

(** A remote store with states [S]: every call gives a reply and the next
    state.  Nothing is assumed of the replies. *)
Record store (S : Type) := mk_store {
  select_all : S -> reply (list habitacion) * S;
  select_single : filter -> S -> reply habitacion * S;
  insert_single : payload -> S -> reply habitacion * S;
  update_single : payload -> filter -> S -> reply habitacion * S;
  delete_where : filter -> S -> reply unit * S }.
Arguments mk_store {S} _ _ _ _ _.
Arguments select_all {S} _ _.
Arguments select_single {S} _ _ _.
Arguments insert_single {S} _ _ _.
Arguments update_single {S} _ _ _ _.
Arguments delete_where {S} _ _ _.

(** The outcome of serving one request. *)
Record outcome (S : Type) := mk_outcome {
  sent : response;
  final : S;
  calls : list store_call }.
Arguments mk_outcome {S} _ _ _.
Arguments sent {S} _.
Arguments final {S} _.
Arguments calls {S} _.

Definition after {S} (c : store_call) (o : outcome S) : outcome S :=
  mk_outcome (sent o) (final o) (c :: calls o).

(** Serving a request against a store in state [s]. *)
Fixpoint run {S} (st : store S) (h : handler) (s : S) : outcome S :=
  match h with
  | Respond r => mk_outcome r s []
  | SelectAll k =>
      let '(r, s') := select_all st s in
      after CallSelectAll (run st (k r) s')
  | SelectSingle f k =>
      let '(r, s') := select_single st f s in
      after (CallSelectSingle f) (run st (k r) s')
  | InsertSingle p k =>
      let '(r, s') := insert_single st p s in
      after (CallInsertSingle p) (run st (k r) s')
  | UpdateSingle p f k =>
      let '(r, s') := update_single st p f s in
      after (CallUpdateSingle p f) (run st (k r) s')
  | DeleteWhere f k =>
      let '(r, s') := delete_where st f s in
      after (CallDeleteWhere f) (run st (k r) s')
  end.

End Store.

(** ** The handlers with validation and pre-checks *)

Module Strict.
Import Js Store.

Definition msg_sin_habitaciones : string := "No hay habitaciones registradas".
Definition msg_id_invalido : string :=
  "ID inválido. Debe ser un número entero positivo.".
Definition msg_no_encontrada : string := "Habitación no encontrada".
Definition msg_campos_obligatorios : string :=
  "Todos los campos son obligatorios.".
Definition msg_ya_existe : string := "El número de habitación ya existe.".
Definition msg_num_habi_invalido : string :=
  "Numero de habitacion invalida! Debe ser un número entero positivo.".
Definition msg_tipo_invalido : string :=
  "El tipo debe ser una cadena de texto.".
Definition msg_capacidad_invalida : string :=
  "Capacidad inválida. Debe ser un número entero positivo.".
Definition msg_precio_invalido : string :=
  "Precio inválido. Debe ser un número entero positivo.".
Definition msg_estado_invalido : string :=
  "El estado debe ser un valor booleano (true o false).".

(** [isNaN(id) || id <= 0] on the parsed id. *)
Definition id_invalid (id : number) : bool :=
  number_isNaN id || number_le_zero id.

(** [.eq('habitacion_id', id)] *)
Definition by_id (id : number) : filter :=
  eq_filter col_habitacion_id (VNumber id).

(** [app.get('/habitaciones')] *)
Definition get_habitaciones : handler :=
  await r <- SelectAll;
  match error r with
  | Some e => json_error 500 (message e)
  | None =>
      match data r with
      | None | Some [] => json_error 404 msg_sin_habitaciones
      | Some _ => Respond (mk_response 200 (JsonRows (data r)))
      end
  end.

(** [app.get('/habitaciones/:id')] *)
Definition get_habitaciones_id (param_id : jsstring) : handler :=
  let id := parseInt param_id in
  if id_invalid id then json_error 400 msg_id_invalido
  else
    await r <- SelectSingle (by_id id);
    match error r, data r with
    | None, Some _ => Respond (mk_response 200 (JsonRow (data r)))
    | _, _ => json_error 404 msg_no_encontrada
    end.

(** The presence test of [app.post('/habitaciones')]:
    [!num_habi || !tipo || !capacidad || !precio || estado === undefined]. *)
Definition missing_field (b : payload) : bool :=
  negb (truthy (num_habi b)) || negb (truthy (tipo b))
  || negb (truthy (capacidad b)) || negb (truthy (precio b))
  || is_undefined (estado b).

(** [app.post('/habitaciones')] *)
Definition post_habitaciones (b : payload) : handler :=
  if missing_field b then json_error 400 msg_campos_obligatorios
  else
    await existe <- SelectSingle (eq_filter col_num_habi (num_habi b));
    match data existe with
    | Some _ => json_error 409 msg_ya_existe
    | None =>
        await r <- InsertSingle b;
        match error r with
        | Some e => json_error 500 (message e)
        | None => Respond (mk_response 201 (JsonRow (data r)))
        end
    end.

Section Patch.

Variable StringToNumber : jsstring -> number.

Let isNaN := Js.isNaN StringToNumber.
Let le_zero := Js.le_zero StringToNumber.

(** The checks of [app.patch('/habitaciones/:id')] on the body, in the
    order of the source: the message of the first one that fails. *)
Definition patch_body_error (b : payload) : option string :=
  if isNaN (num_habi b) || le_zero (num_habi b)
  then Some msg_num_habi_invalido
  else if truthy (tipo b) && negb (js_type_eqb (typeof (tipo b)) TString)
  then Some msg_tipo_invalido
  else if truthy (capacidad b)
          && (isNaN (capacidad b) || le_zero (capacidad b))
  then Some msg_capacidad_invalida
  else if truthy (precio b) && (isNaN (precio b) || le_zero (precio b))
  then Some msg_precio_invalido
  else if negb (is_undefined (estado b))
          && negb (js_type_eqb (typeof (estado b)) TBoolean)
  then Some msg_estado_invalido
  else None.

(** [app.patch('/habitaciones/:id')] *)
Definition patch_habitaciones_id (param_id : jsstring) (b : payload)
  : handler :=
  let id := parseInt param_id in
  if id_invalid id then json_error 400 msg_id_invalido
  else
    match patch_body_error b with
    | Some msg => json_error 400 msg
    | None =>
        await existente <- SelectSingle (by_id id);
        match data existente with
        | None => json_error 404 msg_no_encontrada
        | Some _ =>
            await r <- UpdateSingle b (by_id id);
            match error r with
            | Some e => json_error 500 (message e)
            | None => Respond (mk_response 200 (JsonRow (data r)))
            end
        end
    end.

End Patch.

(** [app.delete('/habitaciones/:id')] *)
Definition delete_habitaciones_id (param_id : jsstring) : handler :=
  let id := parseInt param_id in
  if id_invalid id then json_error 400 msg_id_invalido
  else
    await existente <- SelectSingle (by_id id);
    match data existente with
    | None => json_error 404 msg_no_encontrada
    | Some _ =>
        await r <- DeleteWhere (by_id id);
        match error r with
        | Some e => json_error 500 (message e)
        | None => Respond (mk_response 204 NoBody)
        end
    end.

End Strict.

(** ** The handlers of [habitaciones.js] *)

Module Lenient.
Import Js Store.

Definition msg_no_encontrada : string := "Habitación no encontrada".

(** [.eq('habitacion_id', id)] with [id] the path parameter as it came. *)
Definition by_id (param_id : jsstring) : filter :=
  eq_filter col_habitacion_id (VString param_id).

(** [app.get('/habitaciones')] *)
Definition get_habitaciones : handler :=
  await r <- SelectAll;
  match error r with
  | Some e => json_error 500 (message e)
  | None => Respond (mk_response 200 (JsonRows (data r)))
  end.

(** [app.get('/habitaciones/:id')] *)
Definition get_habitaciones_id (param_id : jsstring) : handler :=
  await r <- SelectSingle (by_id param_id);
  match error r with
  | Some _ => json_error 404 msg_no_encontrada
  | None => Respond (mk_response 200 (JsonRow (data r)))
  end.

(** [app.post('/habitaciones')] *)
Definition post_habitaciones (b : payload) : handler :=
  await r <- InsertSingle b;
  match error r with
  | Some e => json_error 500 (message e)
  | None => Respond (mk_response 201 (JsonRow (data r)))
  end.

(** [app.put('/habitaciones/:id')] *)
Definition put_habitaciones_id (param_id : jsstring) (b : payload)
  : handler :=
  await r <- UpdateSingle b (by_id param_id);
  match error r with
  | Some e => json_error 500 (message e)
  | None => Respond (mk_response 200 (JsonRow (data r)))
  end.

(** [app.delete('/habitaciones/:id')] *)
Definition delete_habitaciones_id (param_id : jsstring) : handler :=
  await r <- DeleteWhere (by_id param_id);
  match error r with
  | Some e => json_error 500 (message e)
  | None => Respond (mk_response 204 NoBody)
  end.

End Lenient.

(** ** An in-memory store

    One instance of the store interface, to run the handlers on concrete
    requests: a list of rows, the next identifier, an optional outage under
    which every call reports the same error, and an optional write
    protection under which insert, update and delete do. *)

Module Memory.
Import Js Store.

Record mem := mk_mem {
  rows : list habitacion;
  next_id : Z;
  outage : option string;
  read_only : option string }.

Definition number_eqb (a b : number) : bool :=
  match a, b with
  | Finite x, Finite y => Qeq_bool x y
  | NegInfinity, NegInfinity | PosInfinity, PosInfinity => true
  | _, _ => false
  end.

(** The number an operand stands for: a number, or a text of digits only. *)
Definition operand_number (v : value) : number :=
  match v with
  | VNumber n => n
  | VString (c :: s) =>
      if forallb is_digit (c :: s) then num (digits_value (c :: s)) else NaN
  | _ => NaN
  end.

Definition cell (c : column) (h : habitacion) : value :=
  match c with
  | col_habitacion_id => VNumber (num (habitacion_id h))
  | col_num_habi => num_habi (columns h)
  end.

Definition matches (f : filter) (h : habitacion) : bool :=
  number_eqb (operand_number (cell (filter_column f) h))
             (operand_number (operand f)).

Definition failed {A} (msg : string) : reply A :=
  mk_reply None (Some (mk_error msg)).

(** [.single()]: the row when exactly one is selected, an error otherwise. *)
Definition single (hs : list habitacion) : reply habitacion :=
  match hs with
  | [h] => mk_reply (Some h) None
  | _ => failed "JSON object requested, multiple (or no) rows returned"
  end.

Definition keep (new old : value) : value :=
  if is_undefined new then old else new.

Definition merge (p : payload) (h : habitacion) : habitacion :=
  let c := columns h in
  mk_habitacion (habitacion_id h)
    (mk_payload (keep (num_habi p) (num_habi c)) (keep (tipo p) (tipo c))
                (keep (capacidad p) (capacidad c)) (keep (precio p) (precio c))
                (keep (estado p) (estado c))).

Definition reading {A} (m : mem) (k : reply A * mem) : reply A * mem :=
  match outage m with
  | Some msg => (failed msg, m)
  | None => k
  end.

Definition writing {A} (m : mem) (k : reply A * mem) : reply A * mem :=
  match outage m, read_only m with
  | Some msg, _ | None, Some msg => (failed msg, m)
  | None, None => k
  end.

Definition with_rows (m : mem) (hs : list habitacion) (next : Z) : mem :=
  mk_mem hs next (outage m) (read_only m).

Definition mem_store : store mem :=
  mk_store
    (fun m => reading m (mk_reply (Some (rows m)) None, m))
    (fun f m => reading m (single (List.filter (matches f) (rows m)), m))
    (fun p m =>
       let h := mk_habitacion (next_id m) p in
       writing m (mk_reply (Some h) None,
                  with_rows m (rows m ++ [h]) (next_id m + 1)))
    (fun p f m =>
       let upd := map (fun h => if matches f h then merge p h else h) (rows m) in
       writing m (single (map (merge p) (List.filter (matches f) (rows m))),
                  with_rows m upd (next_id m)))
    (fun f m =>
       writing m (mk_reply None None,
                  with_rows m
                    (List.filter (fun h => negb (matches f h)) (rows m))
                    (next_id m))).

(** Sample data. *)
Definition room (n : Z) (t : string) (c p : Z) (e : bool) : payload :=
  mk_payload (VNumber (num n)) (VString (str t)) (VNumber (num c))
             (VNumber (num p)) (VBool e).

Definition hotel : mem :=
  mk_mem [mk_habitacion 5 (room 101 "doble" 2 500 true);
          mk_habitacion 7 (room 102 "suite" 4 900 false)] 8 None None.

Definition empty_hotel : mem := mk_mem [] 1 None None.

Definition hotel_down : mem :=
  mk_mem (rows hotel) 8 (Some "fetch failed"%string) None.

Definition hotel_read_only : mem :=
  mk_mem (rows hotel) 8 None
         (Some "permission denied for table habitaciones"%string).

(** A conversion of strings to numbers for the samples: the empty string
    is 0, a text of digits is its value, anything else is NaN. *)
Definition digits_to_number (s : jsstring) : number :=
  match s with
  | [] => Finite 0
  | _ => if forallb is_digit s then num (digits_value s) else NaN
  end.

End Memory.

Import Js Store.

(** ** Serving a request, one store call at a time *)

Section RunFacts.

Context {S : Type} (st : store S).

Lemma run_respond r s : run st (Respond r) s = mk_outcome r s [].
Proof. reflexivity. Qed.

Lemma run_json_error code msg s :
  run st (json_error code msg) s
  = mk_outcome (mk_response code (JsonError msg)) s [].
Proof. reflexivity. Qed.

Lemma run_select_all k s :
  run st (SelectAll k) s
  = after CallSelectAll
      (run st (k (fst (select_all st s))) (snd (select_all st s))).
Proof. simpl. destruct (select_all st s); reflexivity. Qed.

Lemma run_select_single f k s :
  run st (SelectSingle f k) s
  = after (CallSelectSingle f)
      (run st (k (fst (select_single st f s))) (snd (select_single st f s))).
Proof. simpl. destruct (select_single st f s); reflexivity. Qed.

Lemma run_insert_single p k s :
  run st (InsertSingle p k) s
  = after (CallInsertSingle p)
      (run st (k (fst (insert_single st p s))) (snd (insert_single st p s))).
Proof. simpl. destruct (insert_single st p s); reflexivity. Qed.

Lemma run_update_single p f k s :
  run st (UpdateSingle p f k) s
  = after (CallUpdateSingle p f)
      (run st (k (fst (update_single st p f s)))
           (snd (update_single st p f s))).
Proof. simpl. destruct (update_single st p f s); reflexivity. Qed.

Lemma run_delete_where f k s :
  run st (DeleteWhere f k) s
  = after (CallDeleteWhere f)
      (run st (k (fst (delete_where st f s))) (snd (delete_where st f s))).
Proof. simpl. destruct (delete_where st f s); reflexivity. Qed.

End RunFacts.

Create Rewrite HintDb run_eqs.
#[local] Hint Rewrite @run_json_error @run_respond @run_select_all
  @run_select_single @run_insert_single @run_update_single
  @run_delete_where : run_eqs.

Ltac step_run := autorewrite with run_eqs; cbn [after sent final calls].

(** ** An invalid id stops the strict handlers before any store call *)

Lemma get_invalid_id param :
  Strict.id_invalid (parseInt param) = true ->
  Strict.get_habitaciones_id param = json_error 400 Strict.msg_id_invalido.
Proof. unfold Strict.get_habitaciones_id. intros ->. reflexivity. Qed.

Lemma patch_invalid_id stn param b :
  Strict.id_invalid (parseInt param) = true ->
  Strict.patch_habitaciones_id stn param b
  = json_error 400 Strict.msg_id_invalido.
Proof. unfold Strict.patch_habitaciones_id. intros ->. reflexivity. Qed.

Lemma delete_invalid_id param :
  Strict.id_invalid (parseInt param) = true ->
  Strict.delete_habitaciones_id param = json_error 400 Strict.msg_id_invalido.
Proof. unfold Strict.delete_habitaciones_id. intros ->. reflexivity. Qed.

(** An id with no digit after the white space and the sign is NaN, hence
    invalid. *)
Lemma parseInt_NaN_invalid param :
  parseInt param = NaN -> Strict.id_invalid (parseInt param) = true.
Proof. intros ->. reflexivity. Qed.

(** ** POST /habitaciones, strict variant *)

(** A key of the body is present when it does not read as [undefined]. *)
Definition present (v : value) : bool := negb (is_undefined v).

Definition has_all_fields (b : payload) : bool :=
  present (num_habi b) && present (tipo b) && present (capacidad b)
  && present (precio b) && present (estado b).

(** The query of the uniqueness pre-check. *)
Definition by_num_habi (b : payload) : filter :=
  eq_filter col_num_habi (num_habi b).

Lemma missing_field_truthy b :
  truthy (num_habi b) = true -> truthy (tipo b) = true ->
  truthy (capacidad b) = true -> truthy (precio b) = true ->
  Strict.missing_field b = is_undefined (estado b).
Proof.
  unfold Strict.missing_field. intros -> -> -> ->. reflexivity.
Qed.

Lemma post_after_presence b :
  Strict.missing_field b = false ->
  Strict.post_habitaciones b
  = SelectSingle (by_num_habi b) (fun existe =>
      match data existe with
      | Some _ => json_error 409 Strict.msg_ya_existe
      | None =>
          InsertSingle b (fun r =>
            match error r with
            | Some e => json_error 500 (message e)
            | None => Respond (mk_response 201 (JsonRow (data r)))
            end)
      end).
Proof. unfold Strict.post_habitaciones. intros ->. reflexivity. Qed.

(** C1, as stated, fails: the body
    [{num_habi: 0, tipo: "doble", capacidad: 2, precio: 500, estado: false}]
    contains the five fields with [estado] equal to [false], and the presence
    check rejects it with 400 before any store call. *)
Lemma post_estado_false_num_habi_zero_rejected :
  let b := mk_payload (VNumber (num 0)) (VString (str "doble"))
                      (VNumber (num 2)) (VNumber (num 500)) (VBool false) in
  has_all_fields b = true /\ estado b = VBool false
  /\ Strict.missing_field b = true
  /\ forall S (st : store S) s,
       run st (Strict.post_habitaciones b) s
       = mk_outcome
           (mk_response 400 (JsonError Strict.msg_campos_obligatorios)) s [].
Proof. repeat split. Qed.

(** A falsy value in one of the four fields tested for truthiness fails the
    presence check, [estado] or not. *)
Lemma missing_field_falsy b :
  truthy (num_habi b) = false \/ truthy (tipo b) = false
  \/ truthy (capacidad b) = false \/ truthy (precio b) = false ->
  Strict.missing_field b = true.
Proof.
  unfold Strict.missing_field.
  intros [H|[H|[H|H]]]; rewrite H; cbn [negb orb];
    rewrite ?orb_true_r; reflexivity.
Qed.

(** A body that fails the presence check is answered 400 before any store
    call. *)
Lemma post_missing_field_rejected b :
  Strict.missing_field b = true ->
  forall S (st : store S) s,
    run st (Strict.post_habitaciones b) s
    = mk_outcome
        (mk_response 400 (JsonError Strict.msg_campos_obligatorios)) s [].
Proof.
  intros Hm S st s. unfold Strict.post_habitaciones. rewrite Hm. reflexivity.
Qed.

(** C1, amended: a POST whose body has truthy [num_habi], [tipo], [capacidad]
    and [precio] and [estado] equal to [false] passes the presence check; the
    handler then makes the uniqueness query, and when that query gives no row
    it calls insert and answers 201 with the stored row if insert reports no
    error.  A body in which one of those four fields is falsy (0, the empty
    string, null, false, NaN or missing) is answered 400 "Todos los campos
    son obligatorios." before any store call, whatever its [estado]. *)
Theorem post_estado_false_accepted :
  forall (b : payload),
    (truthy (num_habi b) = true -> truthy (tipo b) = true ->
     truthy (capacidad b) = true -> truthy (precio b) = true ->
     estado b = VBool false ->
     Strict.missing_field b = false
     /\ forall S (st : store S) s,
          let pre := select_single st (by_num_habi b) s in
          let ins := insert_single st b (snd pre) in
          let o := run st (Strict.post_habitaciones b) s in
          hd_error (calls o) = Some (CallSelectSingle (by_num_habi b))
          /\ status (sent o) <> 400
          /\ (data (fst pre) = None ->
              calls o = [CallSelectSingle (by_num_habi b); CallInsertSingle b]
              /\ (error (fst ins) = None ->
                  sent o = mk_response 201 (JsonRow (data (fst ins))))))
    /\ (truthy (num_habi b) = false \/ truthy (tipo b) = false
        \/ truthy (capacidad b) = false \/ truthy (precio b) = false ->
        Strict.missing_field b = true
        /\ forall S (st : store S) s,
             run st (Strict.post_habitaciones b) s
             = mk_outcome
                 (mk_response 400 (JsonError Strict.msg_campos_obligatorios))
                 s []).
Proof.
  intros b. split.
  - intros Hn Ht Hc Hp He.
    assert (Hm : Strict.missing_field b = false).
    { rewrite missing_field_truthy by assumption. rewrite He. reflexivity. }
    split; [exact Hm|]. intros S st s pre ins o. subst o.
    rewrite (post_after_presence b Hm), run_select_single.
    fold pre. destruct (data (fst pre)) as [row|] eqn:Hd.
    + step_run. repeat split; cbn; intros; discriminate.
    + rewrite run_insert_single. fold ins.
      destruct (error (fst ins)) as [e|] eqn:Hi; step_run;
        repeat split; cbn; intros; try discriminate.
  - intros Hf. pose proof (missing_field_falsy b Hf) as Hm.
    split; [exact Hm | exact (post_missing_field_rejected b Hm)].
Qed.

Lemma post_estado_false_accepted_witness :
  let b := Memory.room 103 "doble" 2 500 false in
  let nulled := mk_payload (VNumber (num 103)) (VString (str "doble")) VNull
                           (VNumber (num 500)) (VBool false) in
  (Strict.missing_field b = false
   /\ sent (run Memory.mem_store (Strict.post_habitaciones b) Memory.hotel)
      = mk_response 201 (JsonRow (Some (mk_habitacion 8 b))))
  /\ run Memory.mem_store (Strict.post_habitaciones nulled) Memory.hotel
     = mk_outcome
         (mk_response 400 (JsonError Strict.msg_campos_obligatorios))
         Memory.hotel [].
Proof.
  intros b nulled.
  destruct (post_estado_false_accepted b) as [Hok _].
  destruct (post_estado_false_accepted nulled) as [_ Hbad].
  destruct (Hok eq_refl eq_refl eq_refl eq_refl eq_refl) as [Hm H].
  split.
  - split; [exact Hm|].
    destruct (H Memory.mem Memory.mem_store Memory.hotel) as (_ & _ & Hins).
    destruct (Hins eq_refl) as [_ H201].
    exact (H201 eq_refl).
  - destruct Hbad as [_ H400].
    + right; right; left. reflexivity.
    + exact (H400 Memory.mem Memory.mem_store Memory.hotel).
Defined.

(** ** PATCH /habitaciones/:id, strict variant *)

(** The check on [num_habi] has no guard for a missing key: [isNaN(undefined)]
    is true, whatever the rest of the body. *)
Lemma patch_body_error_num_habi_undefined stn b :
  num_habi b = VUndefined ->
  Strict.patch_body_error stn b = Some Strict.msg_num_habi_invalido.
Proof. unfold Strict.patch_body_error. intros ->. reflexivity. Qed.

(** C2: PATCH /habitaciones/5 with body [{precio: 100}], which leaves
    [num_habi] out, is answered 400 with the message of the [num_habi] check,
    before any store call. *)
Theorem patch_without_num_habi_rejected :
  forall (stn : jsstring -> number) S (st : store S) s,
    let b := mk_payload VUndefined VUndefined VUndefined (VNumber (num 100))
                        VUndefined in
    Strict.id_invalid (parseInt (str "5")) = false
    /\ run st (Strict.patch_habitaciones_id stn (str "5") b) s
       = mk_outcome
           (mk_response 400 (JsonError Strict.msg_num_habi_invalido)) s [].
Proof. intros. split; reflexivity. Qed.

(** The other four checks are guarded: a body with a valid [num_habi] and
    nothing else passes them all. *)
Lemma patch_body_error_only_num_habi stn n :
  number_isNaN n = false -> number_le_zero n = false ->
  Strict.patch_body_error stn
    (mk_payload (VNumber n) VUndefined VUndefined VUndefined VUndefined)
  = None.
Proof.
  intros Hn Hz. unfold Strict.patch_body_error, isNaN, le_zero. cbn.
  rewrite Hn, Hz. reflexivity.
Qed.

Lemma patch_after_checks stn param b :
  Strict.id_invalid (parseInt param) = false ->
  Strict.patch_body_error stn b = None ->
  Strict.patch_habitaciones_id stn param b
  = SelectSingle (Strict.by_id (parseInt param)) (fun existente =>
      match data existente with
      | None => json_error 404 Strict.msg_no_encontrada
      | Some _ =>
          UpdateSingle b (Strict.by_id (parseInt param)) (fun r =>
            match error r with
            | Some e => json_error 500 (message e)
            | None => Respond (mk_response 200 (JsonRow (data r)))
            end)
      end).
Proof.
  unfold Strict.patch_habitaciones_id. intros -> ->. reflexivity.
Qed.

Lemma delete_after_checks param :
  Strict.id_invalid (parseInt param) = false ->
  Strict.delete_habitaciones_id param
  = SelectSingle (Strict.by_id (parseInt param)) (fun existente =>
      match data existente with
      | None => json_error 404 Strict.msg_no_encontrada
      | Some _ =>
          DeleteWhere (Strict.by_id (parseInt param)) (fun r =>
            match error r with
            | Some e => json_error 500 (message e)
            | None => Respond (mk_response 204 NoBody)
            end)
      end).
Proof.
  unfold Strict.delete_habitaciones_id. intros ->. reflexivity.
Qed.

(** ** The conflict path of POST /habitaciones *)




(** ** Errors of the store *)

(** [res.status(500).json({ error: error.message })] *)
Definition store_failure (e : store_error) : response :=
  mk_response 500 (JsonError (message e)).

(** C4, as stated, fails: under an outage the single-row query of
    GET /habitaciones/5 reports the error "fetch failed", and the strict
    handler answers 404 "Habitación no encontrada", not 500 with that
    message. *)
Lemma get_by_id_store_error_not_500 :
  let e := mk_error "fetch failed" in
  let q := select_single Memory.mem_store
             (Strict.by_id (parseInt (str "5"))) Memory.hotel_down in
  let o := run Memory.mem_store (Strict.get_habitaciones_id (str "5"))
             Memory.hotel_down in
  error (fst q) = Some e
  /\ sent o = mk_response 404 (JsonError Strict.msg_no_encontrada)
  /\ sent o <> store_failure e.
Proof. repeat split. discriminate. Qed.

(** C4, amended: an error on the store call whose [error] the handler reads
    and reports, that is the select of GET /habitaciones, the insert of POST,
    the update of PATCH and PUT and the delete of DELETE, in both variants,
    gives 500 with the store's message as it came. *)
Theorem store_error_passed_through :
  forall (stn : jsstring -> number) S (st : store S) (s : S)
         (e : store_error) (param : jsstring) (b : payload),
    (error (fst (select_all st s)) = Some e ->
     sent (run st Strict.get_habitaciones s) = store_failure e
     /\ sent (run st Lenient.get_habitaciones s) = store_failure e)
    /\ (Strict.missing_field b = false ->
        let pre := select_single st (by_num_habi b) s in
        data (fst pre) = None ->
        error (fst (insert_single st b (snd pre))) = Some e ->
        sent (run st (Strict.post_habitaciones b) s) = store_failure e)
    /\ (error (fst (insert_single st b s)) = Some e ->
        sent (run st (Lenient.post_habitaciones b) s) = store_failure e)
    /\ (Strict.id_invalid (parseInt param) = false ->
        Strict.patch_body_error stn b = None ->
        let id := Strict.by_id (parseInt param) in
        let pre := select_single st id s in
        data (fst pre) <> None ->
        error (fst (update_single st b id (snd pre))) = Some e ->
        sent (run st (Strict.patch_habitaciones_id stn param b) s)
        = store_failure e)
    /\ (error (fst (update_single st b (Lenient.by_id param) s)) = Some e ->
        sent (run st (Lenient.put_habitaciones_id param b) s)
        = store_failure e)
    /\ (Strict.id_invalid (parseInt param) = false ->
        let id := Strict.by_id (parseInt param) in
        let pre := select_single st id s in
        data (fst pre) <> None ->
        error (fst (delete_where st id (snd pre))) = Some e ->
        sent (run st (Strict.delete_habitaciones_id param) s)
        = store_failure e)
    /\ (error (fst (delete_where st (Lenient.by_id param) s)) = Some e ->
        sent (run st (Lenient.delete_habitaciones_id param) s)
        = store_failure e).
Proof.
  intros stn S st s e param b. repeat apply conj.
  - intros He. unfold Strict.get_habitaciones, Lenient.get_habitaciones.
    rewrite !run_select_all, He. split; reflexivity.
  - intros Hm pre Hd He.
    rewrite (post_after_presence b Hm), run_select_single. fold pre.
    rewrite Hd, run_insert_single, He. reflexivity.
  - intros He. unfold Lenient.post_habitaciones.
    rewrite run_insert_single, He. reflexivity.
  - intros Hid Hb id pre Hd He.
    rewrite (patch_after_checks stn param b Hid Hb), run_select_single.
    fold id pre. destruct (data (fst pre)); [|contradiction].
    rewrite run_update_single, He. reflexivity.
  - intros He. unfold Lenient.put_habitaciones_id.
    rewrite run_update_single, He. reflexivity.
  - intros Hid id pre Hd He.
    rewrite (delete_after_checks param Hid), run_select_single.
    fold id pre. destruct (data (fst pre)); [|contradiction].
    rewrite run_delete_where, He. reflexivity.
  - intros He. unfold Lenient.delete_habitaciones_id.
    rewrite run_delete_where, He. reflexivity.
Qed.

Lemma store_error_passed_through_witness :
  let denied := mk_error "permission denied for table habitaciones" in
  let down := mk_error "fetch failed" in
  let b := Memory.room 103 "doble" 2 500 true in
  let five := str "5" in
  let serve h := sent (run Memory.mem_store h Memory.hotel_read_only) in
  sent (run Memory.mem_store Strict.get_habitaciones Memory.hotel_down)
  = store_failure down
  /\ sent (run Memory.mem_store Lenient.get_habitaciones Memory.hotel_down)
     = store_failure down
  /\ serve (Strict.post_habitaciones b) = store_failure denied
  /\ serve (Lenient.post_habitaciones b) = store_failure denied
  /\ serve (Strict.patch_habitaciones_id Memory.digits_to_number five b)
     = store_failure denied
  /\ serve (Lenient.put_habitaciones_id five b) = store_failure denied
  /\ serve (Strict.delete_habitaciones_id five) = store_failure denied
  /\ serve (Lenient.delete_habitaciones_id five) = store_failure denied.
Proof.
  intros denied down b five serve.
  pose proof (store_error_passed_through Memory.digits_to_number Memory.mem
                Memory.mem_store Memory.hotel_down down five b)
    as (Hlist & _).
  pose proof (store_error_passed_through Memory.digits_to_number Memory.mem
                Memory.mem_store Memory.hotel_read_only denied five b)
    as (_ & Hpost & Hpost' & Hpatch & Hput & Hdel & Hdel').
  destruct (Hlist eq_refl) as [H1 H2].
  split; [exact H1 | split; [exact H2 |]].
  split; [exact (Hpost eq_refl eq_refl eq_refl) |].
  split; [exact (Hpost' eq_refl) |].
  split; [apply (Hpatch eq_refl eq_refl); [discriminate | reflexivity] |].
  split; [exact (Hput eq_refl) |].
  split; [apply (Hdel eq_refl); [discriminate | reflexivity] |].
  exact (Hdel' eq_refl).
Defined.

(** ** GET /habitaciones/:id *)

(** What [.single()] promises of a reply: when it carries no row it carries
    an error. *)
Definition single_contract {S} (st : store S) : Prop :=
  forall f s, data (fst (select_single st f s)) = None ->
              error (fst (select_single st f s)) <> None.

Lemma mem_single_contract : single_contract Memory.mem_store.
Proof.
  intros f s. unfold Memory.mem_store, Memory.reading; cbn.
  destruct (Memory.outage s); cbn; [discriminate|].
  unfold Memory.single.
  destruct (List.filter (Memory.matches f) (Memory.rows s)) as [|h [|h' l]];
    cbn; discriminate.
Qed.

Definition not_found : response :=
  mk_response 404 (JsonError "Habitación no encontrada").

(** C5: with a store whose single-row query reports a missing row as an
    error, as [.single()] does, GET /habitaciones/:id answers 200 with the
    row when the query succeeds, and the same 404 "Habitación no encontrada"
    when no row comes back and when the query reports an error; in the strict
    variant for every id that passes its validation, in the lenient one for
    every id. *)
Theorem get_by_id_row_or_404 :
  forall S (st : store S) (s : S) (param : jsstring),
    single_contract st ->
    (Strict.id_invalid (parseInt param) = false ->
     let r := fst (select_single st (Strict.by_id (parseInt param)) s) in
     let o := run st (Strict.get_habitaciones_id param) s in
     (error r = None ->
      exists row, data r = Some row
                  /\ sent o = mk_response 200 (JsonRow (Some row)))
     /\ (data r = None \/ error r <> None -> sent o = not_found))
    /\ (let r := fst (select_single st (Lenient.by_id param) s) in
        let o := run st (Lenient.get_habitaciones_id param) s in
        (error r = None ->
         exists row, data r = Some row
                     /\ sent o = mk_response 200 (JsonRow (Some row)))
        /\ (data r = None \/ error r <> None -> sent o = not_found)).
Proof.
  intros S st s param Hc. split.
  - intros Hid r o. subst o. unfold Strict.get_habitaciones_id.
    rewrite Hid, run_select_single. fold r.
    pose proof (Hc (Strict.by_id (parseInt param)) s) as Hr. fold r in Hr.
    destruct (error r) as [e|], (data r) as [row|]; step_run; split;
      try (intros _; reflexivity); try (intros H; discriminate H).
    + intros _. exists row. split; reflexivity.
    + intros [H|H]; [discriminate H | contradiction].
    + intros _. exfalso. apply Hr; reflexivity.
  - intros r o. subst o. unfold Lenient.get_habitaciones_id.
    rewrite run_select_single. fold r.
    pose proof (Hc (Lenient.by_id param) s) as Hr. fold r in Hr.
    destruct (error r) as [e|], (data r) as [row|]; step_run; split;
      try (intros _; reflexivity); try (intros H; discriminate H).
    + intros _. exists row. split; reflexivity.
    + intros [H|H]; [discriminate H | contradiction].
    + intros _. exfalso. apply Hr; reflexivity.
    + intros _. exfalso. apply Hr; reflexivity.
Qed.

Lemma get_by_id_row_or_404_witness :
  let row5 := mk_habitacion 5 (Memory.room 101 "doble" 2 500 true) in
  let serve h m := sent (run Memory.mem_store h m) in
  (serve (Strict.get_habitaciones_id (str "5")) Memory.hotel
   = mk_response 200 (JsonRow (Some row5))
   /\ serve (Lenient.get_habitaciones_id (str "5")) Memory.hotel
      = mk_response 200 (JsonRow (Some row5)))
  /\ (serve (Strict.get_habitaciones_id (str "9")) Memory.hotel = not_found
      /\ serve (Lenient.get_habitaciones_id (str "9")) Memory.hotel
         = not_found)
  /\ (serve (Strict.get_habitaciones_id (str "5")) Memory.hotel_down
      = not_found
      /\ serve (Lenient.get_habitaciones_id (str "5")) Memory.hotel_down
         = not_found).
Proof.
  intros row5 serve.
  pose proof (get_by_id_row_or_404 Memory.mem Memory.mem_store) as H.
  destruct (H Memory.hotel (str "5") mem_single_contract) as [Hs Hl].
  destruct (H Memory.hotel (str "9") mem_single_contract) as [Hs9 Hl9].
  destruct (H Memory.hotel_down (str "5") mem_single_contract) as [Hsd Hld].
  destruct (Hs eq_refl) as [Hs_ok _]. destruct Hl as [Hl_ok _].
  destruct (Hs9 eq_refl) as [_ Hs9_no]. destruct Hl9 as [_ Hl9_no].
  destruct (Hsd eq_refl) as [_ Hsd_no]. destruct Hld as [_ Hld_no].
  split; [split | split; split].
  - destruct (Hs_ok eq_refl) as (row & Hrow & Hsent).
    injection Hrow as <-. exact Hsent.
  - destruct (Hl_ok eq_refl) as (row & Hrow & Hsent).
    injection Hrow as <-. exact Hsent.
  - apply Hs9_no. left. reflexivity.
  - apply Hl9_no. left. reflexivity.
  - apply Hsd_no. right. discriminate.
  - apply Hld_no. right. discriminate.
Defined.

(** ** The id path parameter in the strict variant *)

(** With an id that passes the validation, and for PATCH a body that passes
    its checks, the first thing each handler does is query the store for
    that id; none of them answers 400. *)
Lemma valid_id_queries_store stn S (st : store S) s param b :
  Strict.id_invalid (parseInt param) = false ->
  Strict.patch_body_error stn b = None ->
  let q := CallSelectSingle (Strict.by_id (parseInt param)) in
  let asks h := hd_error (calls (run st h s)) = Some q
                /\ status (sent (run st h s)) <> 400 in
  asks (Strict.get_habitaciones_id param)
  /\ asks (Strict.patch_habitaciones_id stn param b)
  /\ asks (Strict.delete_habitaciones_id param).
Proof.
  intros Hid Hb q asks. subst asks q. cbn beta.
  rewrite (patch_after_checks stn param b Hid Hb),
    (delete_after_checks param Hid).
  unfold Strict.get_habitaciones_id. rewrite Hid.
  rewrite !run_select_single.
  set (pre := select_single st (Strict.by_id (parseInt param)) s).
  repeat apply conj; try reflexivity.
  - destruct (error (fst pre)), (data (fst pre)); cbn; discriminate.
  - destruct (data (fst pre)); [rewrite run_update_single|]; cbn;
      [|discriminate].
    destruct (error _); cbn; discriminate.
  - destruct (data (fst pre)); [rewrite run_delete_where|]; cbn;
      [|discriminate].
    destruct (error _); cbn; discriminate.
Qed.

(** C6: the id "12abc" is not a number, yet [parseInt] reads 12 from it, the
    check [isNaN(id) || id <= 0] passes, and GET, PATCH and DELETE each query
    the store for row 12 instead of answering 400. *)
Theorem id_with_trailing_text_reaches_store :
  forall (stn : jsstring -> number) S (st : store S) (s : S),
    let param := str "12abc" in
    let b := Memory.room 101 "doble" 2 500 true in
    let q := CallSelectSingle (Strict.by_id (num 12)) in
    let asks h := hd_error (calls (run st h s)) = Some q
                  /\ status (sent (run st h s)) <> 400 in
    parseInt param = num 12
    /\ asks (Strict.get_habitaciones_id param)
    /\ asks (Strict.patch_habitaciones_id stn param b)
    /\ asks (Strict.delete_habitaciones_id param).
Proof.
  intros stn S st s param b q asks. split; [reflexivity|].
  exact (valid_id_queries_store stn S st s param b eq_refl eq_refl).
Qed.

(** ** GET /habitaciones *)

(** C7: when the select of GET /habitaciones reports no error, the strict
    variant answers 404 "No hay habitaciones registradas" exactly when the
    collection is null or empty and 200 with the collection otherwise; the
    lenient variant answers 200 with the collection as it came. *)
Theorem list_empty_404_or_200 :
  forall S (st : store S) (s : S),
    let r := fst (select_all st s) in
    let strict := sent (run st Strict.get_habitaciones s) in
    let lenient := sent (run st Lenient.get_habitaciones s) in
    error r = None ->
    (strict = mk_response 404 (JsonError Strict.msg_sin_habitaciones)
     <-> data r = None \/ data r = Some [])
    /\ (~ (data r = None \/ data r = Some []) ->
        strict = mk_response 200 (JsonRows (data r)))
    /\ lenient = mk_response 200 (JsonRows (data r)).
Proof.
  intros S st s r strict lenient He. subst strict lenient.
  unfold Strict.get_habitaciones, Lenient.get_habitaciones.
  rewrite !run_select_all. fold r. rewrite He.
  destruct (data r) as [[|h l]|]; step_run.
  - split; [split; auto | split; [|reflexivity]].
    intros H; exfalso; apply H; auto.
  - split; [split | split; reflexivity].
    + discriminate.
    + intros [H|H]; discriminate H.
  - split; [split; auto | split; [|reflexivity]].
    intros H; exfalso; apply H; auto.
Qed.

Lemma list_empty_404_or_200_witness :
  let serve h m := sent (run Memory.mem_store h m) in
  serve Strict.get_habitaciones Memory.empty_hotel
  = mk_response 404 (JsonError Strict.msg_sin_habitaciones)
  /\ serve Lenient.get_habitaciones Memory.empty_hotel
     = mk_response 200 (JsonRows (Some []))
  /\ serve Strict.get_habitaciones Memory.hotel
     = mk_response 200 (JsonRows (Some (Memory.rows Memory.hotel)))
  /\ serve Lenient.get_habitaciones Memory.hotel
     = mk_response 200 (JsonRows (Some (Memory.rows Memory.hotel))).
Proof.
  intros serve.
  destruct (list_empty_404_or_200 Memory.mem Memory.mem_store
              Memory.empty_hotel eq_refl) as (H404 & _ & Hl).
  destruct (list_empty_404_or_200 Memory.mem Memory.mem_store
              Memory.hotel eq_refl) as (_ & H200 & Hl').
  split; [apply H404; right; reflexivity |].
  split; [exact Hl |].
  split; [| exact Hl'].
  apply H200. intros [H|H]; discriminate H.
Defined.

(** ** DELETE /habitaciones/:id *)

(** X9: the strict DELETE, for an id that passes the validation: 404 and no
    delete when the existence query gives no row; otherwise the delete is
    issued, and its error decides between 204 with no body and 500. *)
Lemma strict_delete_flow S (st : store S) s param :
  Strict.id_invalid (parseInt param) = false ->
  let id := Strict.by_id (parseInt param) in
  let pre := select_single st id s in
  let del := delete_where st id (snd pre) in
  let o := run st (Strict.delete_habitaciones_id param) s in
  (data (fst pre) = None ->
   o = mk_outcome not_found (snd pre) [CallSelectSingle id])
  /\ (data (fst pre) <> None ->
      calls o = [CallSelectSingle id; CallDeleteWhere id]
      /\ final o = snd del
      /\ (error (fst del) = None -> sent o = mk_response 204 NoBody)
      /\ (forall e, error (fst del) = Some e -> sent o = store_failure e)).
Proof.
  intros Hid id pre del o. subst o.
  rewrite (delete_after_checks param Hid), run_select_single.
  fold id pre. split.
  - intros ->. reflexivity.
  - destruct (data (fst pre)); [intros _ | contradiction].
    rewrite run_delete_where. fold del.
    destruct (error (fst del)) as [e|]; step_run; repeat split;
      try discriminate.
    intros e' [= <-]. reflexivity.
Qed.

(** X10: the lenient DELETE: one delete with the id as it came, whatever it
    is; its error decides between 204 with no body and 500. *)
Lemma lenient_delete_flow S (st : store S) s param :
  let id := Lenient.by_id param in
  let del := delete_where st id s in
  let o := run st (Lenient.delete_habitaciones_id param) s in
  calls o = [CallDeleteWhere id]
  /\ final o = snd del
  /\ (error (fst del) = None -> sent o = mk_response 204 NoBody)
  /\ (forall e, error (fst del) = Some e -> sent o = store_failure e).
Proof.
  intros id del o. subst o. unfold Lenient.delete_habitaciones_id.
  rewrite run_delete_where. fold id del.
  destruct (error (fst del)) as [e|]; step_run; repeat split;
    try discriminate.
  intros e' [= <-]. reflexivity.
Qed.

(** C8: DELETE /habitaciones/7abc in the strict variant.  The id "7abc" is
    not a positive integer, yet [parseInt] reads 7 from it: the handler
    finds row 7, deletes it and answers 204, where a 400 was due. *)
Theorem delete_id_with_trailing_text_deletes :
  let seven := Strict.by_id (num 7) in
  let o := run Memory.mem_store (Strict.delete_habitaciones_id (str "7abc"))
             Memory.hotel in
  sent o = mk_response 204 NoBody
  /\ calls o = [CallSelectSingle seven; CallDeleteWhere seven]
  /\ Memory.rows (final o)
     = [mk_habitacion 5 (Memory.room 101 "doble" 2 500 true)].
Proof. repeat split. Qed.

(** ** The presence check of POST /habitaciones *)

(** The number 0 as a body value. *)
Definition is_zero (v : value) : bool :=
  match v with VNumber n => number_is_zero n | _ => false end.

(** The empty string as a body value. *)
Definition is_empty_string (v : value) : bool :=
  match v with VString [] => true | _ => false end.

Lemma is_zero_falsy v : is_zero v = true -> truthy v = false.
Proof.
  destruct v; cbn; try discriminate. intros ->.
  rewrite orb_true_r. reflexivity.
Qed.

Lemma is_empty_string_falsy v : is_empty_string v = true -> truthy v = false.
Proof. destruct v as [| | | |[|c s]|]; cbn; intros; congruence. Qed.

(** A field equal to 0 or to the empty string is present in the body. *)
Lemma is_zero_present v : is_zero v = true -> present v = true.
Proof. destruct v; cbn; congruence. Qed.

Lemma is_empty_string_present v : is_empty_string v = true -> present v = true.
Proof. destruct v; cbn; congruence. Qed.

Lemma is_undefined_iff v : is_undefined v = true <-> v = VUndefined.
Proof. destruct v; cbn; split; congruence. Qed.

(** The presence check fails exactly for a falsy [num_habi], [tipo],
    [capacidad] or [precio], or an [estado] that is [undefined]. *)
Lemma missing_field_iff b :
  Strict.missing_field b = true
  <-> truthy (num_habi b) = false \/ truthy (tipo b) = false
      \/ truthy (capacidad b) = false \/ truthy (precio b) = false
      \/ estado b = VUndefined.
Proof.
  unfold Strict.missing_field.
  rewrite !orb_true_iff, !negb_true_iff, is_undefined_iff. tauto.
Qed.

(** C9: the presence check of the strict POST tests [num_habi], [tipo],
    [capacidad] and [precio] for general falsiness and [estado] against
    [undefined] only: it fails exactly when one of the four is falsy or
    [estado] is [undefined], and the request is then answered 400 "Todos los
    campos son obligatorios." without any store call.  In particular a body
    with [num_habi], [capacidad] or [precio] equal to 0, or [tipo] equal to
    the empty string, is rejected although the field is there, and with the
    four truthy the check fails only for an [estado] that is [undefined]. *)
Theorem post_falsy_field_rejected :
  forall (b : payload),
    (is_zero (num_habi b) = true \/ is_empty_string (tipo b) = true
     \/ is_zero (capacidad b) = true \/ is_zero (precio b) = true ->
     forall S (st : store S) s,
       run st (Strict.post_habitaciones b) s
       = mk_outcome
           (mk_response 400 (JsonError Strict.msg_campos_obligatorios)) s [])
    /\ (truthy (num_habi b) = true -> truthy (tipo b) = true ->
        truthy (capacidad b) = true -> truthy (precio b) = true ->
        (Strict.missing_field b = true <-> estado b = VUndefined))
    /\ (Strict.missing_field b = true
        <-> truthy (num_habi b) = false \/ truthy (tipo b) = false
            \/ truthy (capacidad b) = false \/ truthy (precio b) = false
            \/ estado b = VUndefined)
    /\ (truthy (num_habi b) = false \/ truthy (tipo b) = false
        \/ truthy (capacidad b) = false \/ truthy (precio b) = false
        \/ estado b = VUndefined ->
        forall S (st : store S) s,
          run st (Strict.post_habitaciones b) s
          = mk_outcome
              (mk_response 400 (JsonError Strict.msg_campos_obligatorios))
              s [])
    /\ (forall v, is_zero v = true \/ is_empty_string v = true ->
                  present v = true /\ truthy v = false).
Proof.
  intros b. split; [|split; [|split; [|split]]].
  - intros H. apply post_missing_field_rejected, missing_field_falsy.
    destruct H as [H|[H|[H|H]]];
      [apply is_zero_falsy in H | apply is_empty_string_falsy in H
       | apply is_zero_falsy in H | apply is_zero_falsy in H]; tauto.
  - intros Hn Ht Hc Hp. rewrite missing_field_truthy by assumption.
    apply is_undefined_iff.
  - apply missing_field_iff.
  - intros H. apply post_missing_field_rejected, missing_field_iff. exact H.
  - intros v [H|H].
    + split; [apply is_zero_present | apply is_zero_falsy]; exact H.
    + split; [apply is_empty_string_present | apply is_empty_string_falsy];
        exact H.
Qed.

Lemma post_falsy_field_rejected_witness :
  let zero := mk_payload (VNumber (num 0)) (VString (str "doble"))
                (VNumber (num 2)) (VNumber (num 500)) (VBool true) in
  let untyped := mk_payload (VNumber (num 101)) (VString (str ""))
                   (VNumber (num 2)) (VNumber (num 500)) (VBool true) in
  let nulled := mk_payload (VNumber (num 101)) (VString (str "doble"))
                  (VNumber (num 2)) VNull (VBool true) in
  let rejected := mk_response 400 (JsonError Strict.msg_campos_obligatorios) in
  (has_all_fields zero = true
   /\ run Memory.mem_store (Strict.post_habitaciones zero) Memory.hotel
      = mk_outcome rejected Memory.hotel [])
  /\ (has_all_fields untyped = true
      /\ run Memory.mem_store (Strict.post_habitaciones untyped) Memory.hotel
         = mk_outcome rejected Memory.hotel [])
  /\ (has_all_fields nulled = true
      /\ run Memory.mem_store (Strict.post_habitaciones nulled) Memory.hotel
         = mk_outcome rejected Memory.hotel [])
  /\ Strict.missing_field (Memory.room 103 "doble" 2 500 false) = false.
Proof.
  intros zero untyped nulled rejected.
  destruct (post_falsy_field_rejected zero) as [Hz _].
  destruct (post_falsy_field_rejected untyped) as [Hu _].
  destruct (post_falsy_field_rejected nulled) as (_ & _ & _ & Hn & _).
  destruct (post_falsy_field_rejected (Memory.room 103 "doble" 2 500 false))
    as (_ & He & _).
  split; [split; [reflexivity | apply Hz; left; reflexivity] |].
  split; [split; [reflexivity | apply Hu; right; left; reflexivity] |].
  split; [split; [reflexivity |
                  apply Hn; right; right; right; left; reflexivity] |].
  destruct (He eq_refl eq_refl eq_refl eq_refl) as [Hundef _].
  destruct (Strict.missing_field (Memory.room 103 "doble" 2 500 false));
    [|reflexivity].
  discriminate (Hundef eq_refl).
Defined.

(** ** The existence pre-check of PATCH and DELETE *)

(** C10: in the strict PATCH (with a body that passes its checks) and DELETE,
    for an id that passes the validation, whenever the existence query gives
    no row, with or without an error in its reply, the response is 404
    "Habitación no encontrada" and that query is the only store call: the
    update or delete is not made and the error is not reported. *)
Theorem precheck_error_discarded :
  forall (stn : jsstring -> number) S (st : store S) (s : S)
         (param : jsstring) (b : payload),
    Strict.id_invalid (parseInt param) = false ->
    let id := Strict.by_id (parseInt param) in
    let pre := select_single st id s in
    data (fst pre) = None ->
    (Strict.patch_body_error stn b = None ->
     run st (Strict.patch_habitaciones_id stn param b) s
     = mk_outcome not_found (snd pre) [CallSelectSingle id])
    /\ run st (Strict.delete_habitaciones_id param) s
       = mk_outcome not_found (snd pre) [CallSelectSingle id].
Proof.
  intros stn S st s param b Hid id pre Hd. split.
  - intros Hb.
    rewrite (patch_after_checks stn param b Hid Hb), run_select_single.
    fold id pre. rewrite Hd. reflexivity.
  - rewrite (delete_after_checks param Hid), run_select_single.
    fold id pre. rewrite Hd. reflexivity.
Qed.

Lemma precheck_error_discarded_witness :
  let b := Memory.room 101 "doble" 2 650 true in
  let five := str "5" in
  let nine := str "9" in
  let patch := Strict.patch_habitaciones_id Memory.digits_to_number in
  let serve h m := run Memory.mem_store h m in
  error (fst (select_single Memory.mem_store (Strict.by_id (num 5))
                Memory.hotel_down))
  = Some (mk_error "fetch failed")
  /\ serve (patch five b) Memory.hotel_down
     = mk_outcome not_found Memory.hotel_down
         [CallSelectSingle (Strict.by_id (num 5))]
  /\ serve (Strict.delete_habitaciones_id five) Memory.hotel_down
     = mk_outcome not_found Memory.hotel_down
         [CallSelectSingle (Strict.by_id (num 5))]
  /\ serve (patch nine b) Memory.hotel
     = mk_outcome not_found Memory.hotel
         [CallSelectSingle (Strict.by_id (num 9))]
  /\ serve (Strict.delete_habitaciones_id nine) Memory.hotel
     = mk_outcome not_found Memory.hotel
         [CallSelectSingle (Strict.by_id (num 9))].
Proof.
  intros b five nine patch serve.
  destruct (precheck_error_discarded Memory.digits_to_number Memory.mem
              Memory.mem_store Memory.hotel_down five b eq_refl eq_refl)
    as [Hp Hd].
  destruct (precheck_error_discarded Memory.digits_to_number Memory.mem
              Memory.mem_store Memory.hotel nine b eq_refl eq_refl)
    as [Hp' Hd'].
  split; [reflexivity |].
  split; [exact (Hp eq_refl) |].
  split; [exact Hd |].
  split; [exact (Hp' eq_refl) | exact Hd'].
Defined.

(** ** Which id path parameters the strict variant accepts *)

(** The path parameter once a leading ['+'] is dropped. *)
Definition strip_plus (s : jsstring) : jsstring :=
  match s with
  | c :: tl => if (c =? 43)%N then tl else s
  | [] => []
  end.

Lemma num_le_zero z : number_le_zero (num z) = (z <=? 0).
Proof.
  unfold num, number_le_zero, Qle_bool, inject_Z. cbn.
  rewrite Z.mul_1_r. reflexivity.
Qed.

Lemma id_invalid_num z : Strict.id_invalid (num z) = (z <=? 0).
Proof. unfold Strict.id_invalid. cbn [num number_isNaN orb]. apply num_le_zero. Qed.

Lemma is_digit_range c : is_digit c = true -> (48 <= c <= 57)%N.
Proof.
  unfold is_digit. rewrite andb_true_iff, !N.leb_le. tauto.
Qed.

Lemma digits_fold_lower ds :
  forallb is_digit ds = true ->
  forall acc, 0 <= acc ->
    acc <= fold_left (fun a c => 10 * a + (Z.of_N c - 48)) ds acc.
Proof.
  induction ds as [|c ds IH]; intros Hd acc Hacc; cbn [fold_left].
  - lia.
  - cbn in Hd. apply andb_true_iff in Hd as [Hc Hd].
    apply is_digit_range in Hc.
    etransitivity; [|apply (IH Hd)]; lia.
Qed.

Lemma digits_value_nonneg ds :
  forallb is_digit ds = true -> 0 <= digits_value ds.
Proof. intros Hd. apply (digits_fold_lower ds Hd 0). lia. Qed.

Lemma leading_digits_are_digits s : forallb is_digit (leading_digits s) = true.
Proof.
  induction s as [|c s IH]; cbn; [reflexivity|].
  destruct (is_digit c) eqn:Hc; cbn; [rewrite Hc; exact IH | reflexivity].
Qed.

Lemma leading_digits_app ds rest :
  forallb is_digit ds = true ->
  leading_digits (ds ++ rest) = ds ++ leading_digits rest.
Proof.
  induction ds as [|c ds IH]; cbn; [reflexivity|].
  intros Hd. apply andb_true_iff in Hd as [-> Hd]. rewrite IH by exact Hd.
  reflexivity.
Qed.

Lemma skip_white_space_app ws s :
  forallb is_white_space ws = true ->
  skip_white_space (ws ++ s) = skip_white_space s.
Proof.
  induction ws as [|c ws IH]; cbn; [reflexivity|].
  intros Hw. apply andb_true_iff in Hw as [-> Hw]. exact (IH Hw).
Qed.

(** A digit is neither white space nor a sign. *)
Lemma digit_is_plain c :
  is_digit c = true ->
  is_white_space c = false /\ (c =? 45)%N = false /\ (c =? 43)%N = false.
Proof.
  intros Hc. apply is_digit_range in Hc. unfold is_white_space.
  repeat match goal with
         | |- context [(c =? ?k)%N] =>
             replace (c =? k)%N with false by (symmetry; apply N.eqb_neq; lia)
         end.
  replace (c <=? 8202)%N with true by (symmetry; apply N.leb_le; lia).
  replace (8192 <=? c)%N with false by (symmetry; apply N.leb_gt; lia).
  repeat split.
Qed.

(** What [parseInt] reads from a parameter, in terms of its text. *)
Lemma parseInt_shape param :
  let t := skip_white_space param in
  let ds := leading_digits (strip_plus t) in
  Strict.id_invalid (parseInt param) = (digits_value ds <=? 0).
Proof.
  intros t ds. subst ds. unfold parseInt. fold t.
  destruct t as [|c tl]; [reflexivity|]. cbn [strip_plus].
  destruct (c =? 45)%N eqn:Hm.
  - apply N.eqb_eq in Hm. subst c.
    replace (leading_digits (45%N :: tl)) with (@nil N) by reflexivity.
    change ((45 =? 43)%N) with false. cbv iota.
    pose proof (leading_digits_are_digits tl) as Hd.
    apply digits_value_nonneg in Hd.
    destruct (leading_digits tl) eqn:Hl; [reflexivity|].
    rewrite id_invalid_num. change (digits_value []) with 0.
    change (0 <=? 0) with true. apply Z.leb_le. lia.
  - destruct (c =? 43)%N.
    + destruct (leading_digits tl) eqn:Hl; [reflexivity|].
      rewrite id_invalid_num. f_equal. lia.
    + destruct (leading_digits (c :: tl)) eqn:Hl; [reflexivity|].
      rewrite id_invalid_num. f_equal. lia.
Qed.

(** X1: the id check of the strict handlers passes exactly for a parameter
    that, after leading white space and one optional ['+'], starts with
    decimal digits of positive value; anything after those digits is not
    looked at. *)
Theorem id_accepted_iff_positive_prefix :
  forall (param : jsstring),
    Strict.id_invalid (parseInt param) = false
    <-> 0 < digits_value
              (leading_digits (strip_plus (skip_white_space param))).
Proof.
  intros param. rewrite parseInt_shape. rewrite Z.leb_gt. reflexivity.
Qed.

(** [parseInt] on a text made of digits only. *)
Lemma parseInt_digits ds :
  ds <> [] -> forallb is_digit ds = true ->
  parseInt ds = num (digits_value ds).
Proof.
  intros Hne Hd. destruct ds as [|d ds']; [contradiction|].
  pose proof Hd as Hall. cbn [forallb] in Hd.
  apply andb_true_iff in Hd as [Hdig _].
  destruct (digit_is_plain d Hdig) as (Hw & Hm & Hp).
  unfold parseInt. cbn [skip_white_space]. rewrite Hw, Hm, Hp.
  pose proof (leading_digits_app (d :: ds') [] Hall) as Hl.
  rewrite !app_nil_r in Hl. rewrite Hl.
  f_equal. lia.
Qed.

(** [parseInt] looks neither at white space before the digits nor at what
    follows them. *)
Lemma parseInt_surroundings ws ds rest :
  forallb is_white_space ws = true ->
  ds <> [] -> forallb is_digit ds = true ->
  leading_digits rest = [] ->
  parseInt (ws ++ ds ++ rest) = parseInt ds.
Proof.
  intros Hws Hne Hd Hrest. rewrite (parseInt_digits ds Hne Hd).
  destruct ds as [|d ds']; [contradiction|].
  pose proof Hd as Hall. cbn [forallb] in Hd.
  apply andb_true_iff in Hd as [Hdig _].
  destruct (digit_is_plain d Hdig) as (Hw & Hm & Hp).
  unfold parseInt. rewrite (skip_white_space_app ws _ Hws).
  change ((d :: ds') ++ rest) with (d :: (ds' ++ rest)).
  cbn [skip_white_space]. rewrite Hw, Hm, Hp.
  change (d :: (ds' ++ rest)) with ((d :: ds') ++ rest).
  rewrite (leading_digits_app _ rest Hall), Hrest, app_nil_r.
  f_equal. lia.
Qed.

Definition bad_request : response :=
  mk_response 400 (JsonError Strict.msg_id_invalido).

(** X2: when the id parameter, after leading white space and an optional
    ['+'], does not start with digits of positive value (no digit there, a
    ['-'], or zeros only), GET, PATCH and DELETE by id answer 400 "ID
    inválido..." without any store call, PATCH whatever its body. *)
Theorem invalid_id_rejected_before_store :
  forall (stn : jsstring -> number) S (st : store S) (s : S)
         (param : jsstring) (b : payload),
    digits_value (leading_digits (strip_plus (skip_white_space param))) = 0 ->
    run st (Strict.get_habitaciones_id param) s = mk_outcome bad_request s []
    /\ run st (Strict.patch_habitaciones_id stn param b) s
       = mk_outcome bad_request s []
    /\ run st (Strict.delete_habitaciones_id param) s
       = mk_outcome bad_request s [].
Proof.
  intros stn S st s param b Hz.
  assert (Hinv : Strict.id_invalid (parseInt param) = true).
  { rewrite parseInt_shape, Hz. reflexivity. }
  rewrite (get_invalid_id param Hinv), (patch_invalid_id stn param b Hinv),
    (delete_invalid_id param Hinv).
  repeat split.
Qed.

Lemma invalid_id_rejected_before_store_witness :
  let nothing := mk_payload VUndefined VUndefined VUndefined VUndefined
                            VUndefined in
  let serve h := run Memory.mem_store h Memory.hotel in
  serve (Strict.get_habitaciones_id (str "abc"))
  = mk_outcome bad_request Memory.hotel []
  /\ serve (Strict.patch_habitaciones_id Memory.digits_to_number (str "-5")
              nothing)
     = mk_outcome bad_request Memory.hotel []
  /\ serve (Strict.delete_habitaciones_id (str " +000")) 
     = mk_outcome bad_request Memory.hotel [].
Proof.
  intros nothing serve.
  destruct (invalid_id_rejected_before_store Memory.digits_to_number
              Memory.mem Memory.mem_store Memory.hotel (str "abc") nothing
              eq_refl) as (Hget & _ & _).
  destruct (invalid_id_rejected_before_store Memory.digits_to_number
              Memory.mem Memory.mem_store Memory.hotel (str "-5") nothing
              eq_refl) as (_ & Hpatch & _).
  destruct (invalid_id_rejected_before_store Memory.digits_to_number
              Memory.mem Memory.mem_store Memory.hotel (str " +000") nothing
              eq_refl) as (_ & _ & Hdel).
  split; [exact Hget | split; [exact Hpatch | exact Hdel]].
Defined.

(** The largest integer up to which every integer is a double: a digit
    string of at most this value is read by [parseInt] as exactly its
    value. *)
Definition max_exact_integer : Z := 2 ^ 53.

(** X3: an id parameter made of decimal digits only, of a value above zero
    and at most 2^53, is accepted, and GET and DELETE by id, and PATCH with a
    body that passes its checks, first query the store for the row whose
    [habitacion_id] is that value (leading zeros do not matter). *)
Theorem digit_id_queries_its_row :
  forall (stn : jsstring -> number) S (st : store S) (s : S)
         (ds : jsstring) (b : payload),
    ds <> [] -> forallb is_digit ds = true ->
    0 < digits_value ds <= max_exact_integer ->
    Strict.patch_body_error stn b = None ->
    let q := CallSelectSingle (Strict.by_id (num (digits_value ds))) in
    hd_error (calls (run st (Strict.get_habitaciones_id ds) s)) = Some q
    /\ hd_error (calls (run st (Strict.patch_habitaciones_id stn ds b) s))
       = Some q
    /\ hd_error (calls (run st (Strict.delete_habitaciones_id ds) s))
       = Some q.
Proof.
  intros stn S st s ds b Hne Hd [Hpos _] Hb q. subst q.
  assert (Hid : Strict.id_invalid (parseInt ds) = false).
  { rewrite (parseInt_digits ds Hne Hd), id_invalid_num. apply Z.leb_gt.
    exact Hpos. }
  pose proof (valid_id_queries_store stn S st s ds b Hid Hb) as H.
  cbv zeta in H. rewrite (parseInt_digits ds Hne Hd) in H.
  destruct H as ((Hg & _) & (Hp & _) & (Hdl & _)).
  split; [exact Hg | split; [exact Hp | exact Hdl]].
Qed.

Lemma digit_id_queries_its_row_witness :
  let q := CallSelectSingle (Strict.by_id (num 7)) in
  let b := Memory.room 102 "suite" 4 950 true in
  let serve h := hd_error (calls (run Memory.mem_store h Memory.hotel)) in
  serve (Strict.get_habitaciones_id (str "007")) = Some q
  /\ serve (Strict.patch_habitaciones_id Memory.digits_to_number (str "007") b)
     = Some q
  /\ serve (Strict.delete_habitaciones_id (str "007")) = Some q.
Proof.
  intros q b serve.
  apply (digit_id_queries_its_row Memory.digits_to_number Memory.mem
           Memory.mem_store Memory.hotel (str "007") b).
  - discriminate.
  - reflexivity.
  - split; [reflexivity | discriminate].
  - reflexivity.
Defined.

(** X4: the strict handlers depend on the id parameter through [parseInt]
    only, so white space before the digits and any text after them that does
    not start with a digit change nothing: the handler for such a parameter
    is the handler for its digits. *)
Theorem id_surroundings_ignored :
  forall (stn : jsstring -> number) (ws ds rest : jsstring) (b : payload),
    forallb is_white_space ws = true ->
    ds <> [] -> forallb is_digit ds = true ->
    leading_digits rest = [] ->
    let param := ws ++ ds ++ rest in
    Strict.get_habitaciones_id param = Strict.get_habitaciones_id ds
    /\ Strict.patch_habitaciones_id stn param b
       = Strict.patch_habitaciones_id stn ds b
    /\ Strict.delete_habitaciones_id param = Strict.delete_habitaciones_id ds.
Proof.
  intros stn ws ds rest b Hws Hne Hd Hrest param.
  pose proof (parseInt_surroundings ws ds rest Hws Hne Hd Hrest) as Hp.
  fold param in Hp.
  unfold Strict.get_habitaciones_id, Strict.patch_habitaciones_id,
    Strict.delete_habitaciones_id.
  rewrite Hp. repeat split.
Qed.

Lemma id_surroundings_ignored_witness :
  let b := Memory.room 102 "suite" 4 950 true in
  Strict.get_habitaciones_id (str " 7abc")
  = Strict.get_habitaciones_id (str "7")
  /\ Strict.patch_habitaciones_id Memory.digits_to_number (str " 7abc") b
     = Strict.patch_habitaciones_id Memory.digits_to_number (str "7") b
  /\ Strict.delete_habitaciones_id (str " 7abc")
     = Strict.delete_habitaciones_id (str "7").
Proof.
  intros b.
  apply (id_surroundings_ignored Memory.digits_to_number (str " ") (str "7")
           (str "abc") b).
  - reflexivity.
  - discriminate.
  - reflexivity.
  - reflexivity.
Defined.

(** ** Which bodies the strict PATCH accepts *)

(** A number above zero, [Infinity] included. *)
Definition positive_number (n : number) : Prop :=
  match n with
  | Finite q => (0 < q)%Q
  | PosInfinity => True
  | NaN | NegInfinity => False
  end.

Lemma number_check_passes n :
  number_isNaN n || number_le_zero n = false <-> positive_number n.
Proof.
  destruct n as [| |q|]; cbn; try (split; [discriminate | tauto]);
    try tauto.
  split.
  - intros H. apply Qnot_le_lt. intros Hle.
    apply Qle_bool_iff in Hle. congruence.
  - intros H. destruct (Qle_bool q 0) eqn:Hle; [|reflexivity].
    apply Qle_bool_iff in Hle. exfalso. exact (Qlt_not_le _ _ H Hle).
Qed.

Lemma value_check_passes stn v :
  isNaN stn v || le_zero stn v = false <-> positive_number (ToNumber stn v).
Proof. unfold isNaN, le_zero. apply number_check_passes. Qed.

Lemma guarded_check_passes stn v :
  truthy v && (isNaN stn v || le_zero stn v) = false
  <-> (truthy v = true -> positive_number (ToNumber stn v)).
Proof.
  rewrite <- value_check_passes.
  destruct (truthy v), (isNaN stn v || le_zero stn v); cbn;
    split; intros H; try reflexivity; try discriminate; auto;
    try discriminate (H eq_refl).
Qed.

Lemma typeof_string v :
  js_type_eqb (typeof v) TString = true <-> exists s, v = VString s.
Proof.
  destruct v as [| | | |x|]; cbn; split; intros H; try discriminate;
    try (now destruct H); try reflexivity.
  exists x. reflexivity.
Qed.

Lemma typeof_boolean v :
  js_type_eqb (typeof v) TBoolean = true <-> exists x, v = VBool x.
Proof.
  destruct v as [| |x| | |]; cbn; split; intros H; try discriminate;
    try (now destruct H); try reflexivity.
  exists x. reflexivity.
Qed.

Lemma patch_body_error_eq stn b :
  Strict.patch_body_error stn b
  = if isNaN stn (num_habi b) || le_zero stn (num_habi b)
    then Some Strict.msg_num_habi_invalido
    else if truthy (tipo b) && negb (js_type_eqb (typeof (tipo b)) TString)
    then Some Strict.msg_tipo_invalido
    else if truthy (capacidad b)
            && (isNaN stn (capacidad b) || le_zero stn (capacidad b))
    then Some Strict.msg_capacidad_invalida
    else if truthy (precio b)
            && (isNaN stn (precio b) || le_zero stn (precio b))
    then Some Strict.msg_precio_invalido
    else if negb (is_undefined (estado b))
            && negb (js_type_eqb (typeof (estado b)) TBoolean)
    then Some Strict.msg_estado_invalido
    else None.
Proof. reflexivity. Qed.

(** X5: the body checks of the strict PATCH pass exactly when [num_habi]
    converts to a number above zero, [tipo] is falsy or a string,
    [capacidad] and [precio] are each falsy or convert to a number above
    zero, and [estado] is missing or a boolean.  So [num_habi] is required,
    nothing is required to be an integer, and a falsy [tipo], [capacidad] or
    [precio] (0, the empty string, null, false) is not checked. *)
Theorem patch_body_accepted_iff :
  forall (stn : jsstring -> number) (b : payload),
    Strict.patch_body_error stn b = None
    <-> positive_number (ToNumber stn (num_habi b))
        /\ (truthy (tipo b) = true -> exists s, tipo b = VString s)
        /\ (truthy (capacidad b) = true ->
            positive_number (ToNumber stn (capacidad b)))
        /\ (truthy (precio b) = true ->
            positive_number (ToNumber stn (precio b)))
        /\ (estado b = VUndefined \/ exists x, estado b = VBool x).
Proof.
  intros stn b. rewrite patch_body_error_eq.
  rewrite <- value_check_passes, <- !guarded_check_passes.
  assert (Ht : truthy (tipo b)
               && negb (js_type_eqb (typeof (tipo b)) TString) = false
               <-> (truthy (tipo b) = true -> exists s, tipo b = VString s)).
  { rewrite <- typeof_string.
    destruct (truthy (tipo b)), (js_type_eqb (typeof (tipo b)) TString);
      cbn; split; intros H; try reflexivity; try discriminate; auto;
      try discriminate (H eq_refl). }
  assert (He : negb (is_undefined (estado b))
               && negb (js_type_eqb (typeof (estado b)) TBoolean) = false
               <-> (estado b = VUndefined \/ exists x, estado b = VBool x)).
  { rewrite <- typeof_boolean.
    destruct (estado b); cbn; split; intros H; try reflexivity;
      try discriminate; auto;
      destruct H as [H|H]; discriminate H. }
  rewrite <- Ht, <- He.
  destruct (isNaN stn (num_habi b) || le_zero stn (num_habi b));
    [split; [discriminate | intros [H _]; discriminate H]|].
  destruct (truthy (tipo b)
            && negb (js_type_eqb (typeof (tipo b)) TString));
    [split; [discriminate | intros (_ & H & _); discriminate H]|].
  destruct (truthy (capacidad b)
            && (isNaN stn (capacidad b) || le_zero stn (capacidad b)));
    [split; [discriminate | intros (_ & _ & H & _); discriminate H]|].
  destruct (truthy (precio b)
            && (isNaN stn (precio b) || le_zero stn (precio b)));
    [split; [discriminate | intros (_ & _ & _ & H & _); discriminate H]|].
  destruct (negb (is_undefined (estado b))
            && negb (js_type_eqb (typeof (estado b)) TBoolean));
    [split; [discriminate | intros (_ & _ & _ & _ & H); discriminate H]|].
  split; auto.
Qed.

(** A body value as the guarded checks of PATCH see it: a falsy one counts
    as missing. *)
Definition drop_falsy (v : value) : value :=
  if truthy v then v else VUndefined.

(** X6: for the body checks of the strict PATCH a falsy [tipo], [capacidad]
    or [precio] is the same as a missing one: the checks give the same
    verdict on the body with those values left out. *)
Theorem patch_falsy_fields_unchecked :
  forall (stn : jsstring -> number) (b : payload),
    Strict.patch_body_error stn b
    = Strict.patch_body_error stn
        (mk_payload (num_habi b) (drop_falsy (tipo b))
                    (drop_falsy (capacidad b)) (drop_falsy (precio b))
                    (estado b)).
Proof.
  intros stn b. rewrite !patch_body_error_eq.
  cbn [num_habi tipo capacidad precio estado]. unfold drop_falsy.
  destruct (truthy (tipo b)) eqn:Ht, (truthy (capacidad b)) eqn:Hc,
    (truthy (precio b)) eqn:Hp;
    rewrite ?Ht, ?Hc, ?Hp; cbn [truthy andb]; reflexivity.
Qed.

(** X7: with a valid id, a [num_habi] above zero and no [tipo], a negative
    [capacidad] is answered 400 "Capacidad inválida..." and, when
    [capacidad] is missing, zero or above zero, a negative [precio] is
    answered 400 "Precio inválido..."; no store call is made. *)
Theorem patch_negative_amount_rejected :
  forall (stn : jsstring -> number) S (st : store S) (s : S)
         (param : jsstring) (n : number) (q : Q) (c e : value),
    Strict.id_invalid (parseInt param) = false ->
    positive_number n ->
    (q < 0)%Q ->
    run st (Strict.patch_habitaciones_id stn param
              (mk_payload (VNumber n) VUndefined (VNumber (Finite q)) c e)) s
    = mk_outcome
        (mk_response 400 (JsonError Strict.msg_capacidad_invalida)) s []
    /\ ((c = VUndefined \/ exists k, c = VNumber (Finite k) /\ (0 <= k)%Q) ->
        run st (Strict.patch_habitaciones_id stn param
                  (mk_payload (VNumber n) VUndefined c (VNumber (Finite q)) e))
            s
        = mk_outcome
            (mk_response 400 (JsonError Strict.msg_precio_invalido)) s []).
Proof.
  intros stn S st s param n q c e Hid Hn Hq.
  assert (Hnum : number_isNaN n || number_le_zero n = false)
    by (apply number_check_passes; exact Hn).
  assert (Hle : Qle_bool q 0 = true)
    by (apply Qle_bool_iff, Qlt_le_weak; exact Hq).
  assert (Hnz : Qeq_bool q 0 = false).
  { destruct (Qeq_bool q 0) eqn:Hz; [|reflexivity].
    apply Qeq_bool_iff in Hz. rewrite Hz in Hq.
    exfalso. exact (Qlt_irrefl _ Hq). }
  unfold Strict.patch_habitaciones_id. rewrite Hid, !patch_body_error_eq.
  unfold isNaN, le_zero.
  cbn [num_habi tipo capacidad precio estado ToNumber truthy typeof andb
       number_isNaN number_is_zero number_le_zero orb negb].
  rewrite Hnum, Hnz, Hle. cbn [negb andb orb]. split; [reflexivity|].
  intros [-> | (k & -> & Hk)].
  - reflexivity.
  - cbn [truthy ToNumber number_isNaN number_is_zero number_le_zero orb].
    destruct (Qeq_bool k 0) eqn:Hk0; cbn [negb andb]; [reflexivity|].
    destruct (Qle_bool k 0) eqn:Hk1; cbn [negb andb]; [|reflexivity].
    exfalso. apply Qle_bool_iff in Hk1.
    assert (Hzero : (k == 0)%Q) by (apply Qle_antisym; assumption).
    apply Qeq_bool_iff in Hzero. congruence.
Qed.

Lemma patch_negative_amount_rejected_witness :
  let serve b := run Memory.mem_store
                   (Strict.patch_habitaciones_id Memory.digits_to_number
                      (str "5") b) Memory.hotel in
  let body c p := mk_payload (VNumber (num 101)) VUndefined c p VUndefined in
  serve (body (VNumber (num (-2))) VUndefined)
  = mk_outcome
      (mk_response 400 (JsonError Strict.msg_capacidad_invalida))
      Memory.hotel []
  /\ serve (body VUndefined (VNumber (num (-10))))
     = mk_outcome
         (mk_response 400 (JsonError Strict.msg_precio_invalido))
         Memory.hotel [].
Proof.
  intros serve body.
  assert (Hpos : positive_number (num 101)) by reflexivity.
  destruct (patch_negative_amount_rejected Memory.digits_to_number
              Memory.mem Memory.mem_store Memory.hotel (str "5") (num 101)
              (inject_Z (-2)) VUndefined VUndefined eq_refl Hpos eq_refl)
    as [Hcap _].
  destruct (patch_negative_amount_rejected Memory.digits_to_number
              Memory.mem Memory.mem_store Memory.hotel (str "5") (num 101)
              (inject_Z (-10)) VUndefined VUndefined eq_refl Hpos eq_refl)
    as [_ Hprecio].
  split; [exact Hcap | apply Hprecio; left; reflexivity].
Defined.

(** ** The update path of PATCH /habitaciones/:id *)

(** X8: in the strict PATCH, with an id and a body that pass the checks and
    an existence query that returns a row, the store calls are that query
    and one update, given the five body values as they came and the id read
    by [parseInt]; the answer is 200 with the row the update returns when it
    reports no error, and 500 with its message otherwise. *)
Theorem strict_patch_flow :
  forall (stn : jsstring -> number) S (st : store S) (s : S)
         (param : jsstring) (b : payload),
    Strict.id_invalid (parseInt param) = false ->
    Strict.patch_body_error stn b = None ->
    let id := Strict.by_id (parseInt param) in
    let pre := select_single st id s in
    let upd := update_single st b id (snd pre) in
    let o := run st (Strict.patch_habitaciones_id stn param b) s in
    data (fst pre) <> None ->
    calls o = [CallSelectSingle id; CallUpdateSingle b id]
    /\ final o = snd upd
    /\ (error (fst upd) = None ->
        sent o = mk_response 200 (JsonRow (data (fst upd))))
    /\ (forall e, error (fst upd) = Some e -> sent o = store_failure e).
Proof.
  intros stn S st s param b Hid Hb id pre upd o Hrow. subst o.
  rewrite (patch_after_checks stn param b Hid Hb), run_select_single.
  fold id pre. destruct (data (fst pre)); [|contradiction].
  rewrite run_update_single. fold upd.
  destruct (error (fst upd)) as [e|]; step_run; repeat split;
    try discriminate.
  intros e' [= <-]. reflexivity.
Qed.

Lemma strict_patch_flow_witness :
  let b := mk_payload (VNumber (num 101)) VUndefined VUndefined
                      (VNumber (num 650)) VUndefined in
  let id := Strict.by_id (num 5) in
  let o := run Memory.mem_store
             (Strict.patch_habitaciones_id Memory.digits_to_number (str "5") b)
             Memory.hotel in
  calls o = [CallSelectSingle id; CallUpdateSingle b id]
  /\ sent o
     = mk_response 200
         (JsonRow (Some (mk_habitacion 5 (Memory.room 101 "doble" 2 650 true)))).
Proof.
  intros b id o.
  destruct (strict_patch_flow Memory.digits_to_number Memory.mem
              Memory.mem_store Memory.hotel (str "5") b eq_refl eq_refl)
    as (Hcalls & _ & H200 & _); [discriminate|].
  split; [exact Hcalls | exact (H200 eq_refl)].
Defined.

Lemma strict_delete_flow_witness :
  let id := Strict.by_id (num 7) in
  let o := run Memory.mem_store (Strict.delete_habitaciones_id (str "7"))
             Memory.hotel in
  let o' := run Memory.mem_store (Strict.delete_habitaciones_id (str "9"))
              Memory.hotel in
  (calls o = [CallSelectSingle id; CallDeleteWhere id]
   /\ sent o = mk_response 204 NoBody)
  /\ o' = mk_outcome not_found Memory.hotel
            [CallSelectSingle (Strict.by_id (num 9))].
Proof.
  intros id o o'.
  destruct (strict_delete_flow Memory.mem Memory.mem_store Memory.hotel
              (str "7") eq_refl) as [_ Hdel].
  destruct (strict_delete_flow Memory.mem Memory.mem_store Memory.hotel
              (str "9") eq_refl) as [Hmiss _].
  split; [|exact (Hmiss eq_refl)].
  destruct Hdel as (Hcalls & _ & H204 & _); [discriminate|].
  split; [exact Hcalls | exact (H204 eq_refl)].
Defined.

Lemma lenient_delete_flow_witness :
  let o := run Memory.mem_store (Lenient.delete_habitaciones_id (str "abc"))
             Memory.hotel in
  calls o = [CallDeleteWhere (Lenient.by_id (str "abc"))]
  /\ sent o = mk_response 204 NoBody.
Proof.
  intros o.
  destruct (lenient_delete_flow Memory.mem Memory.mem_store Memory.hotel
              (str "abc")) as (Hcalls & _ & H204 & _).
  split; [exact Hcalls | exact (H204 eq_refl)].
Defined.

(** ** The routes of the two applications *)

(** The requests the strict application has a route for. *)
Inductive strict_request :=
| SGetHabitaciones                                   (* GET /habitaciones *)
| SGetHabitacion (param_id : jsstring)               (* GET /habitaciones/:id *)
| SPostHabitacion (b : payload)                      (* POST /habitaciones *)
| SPatchHabitacion (param_id : jsstring) (b : payload) (* PATCH /habitaciones/:id *)
| SDeleteHabitacion (param_id : jsstring).           (* DELETE /habitaciones/:id *)

Definition strict_app (stn : jsstring -> number) (r : strict_request)
  : handler :=
  match r with
  | SGetHabitaciones => Strict.get_habitaciones
  | SGetHabitacion p => Strict.get_habitaciones_id p
  | SPostHabitacion b => Strict.post_habitaciones b
  | SPatchHabitacion p b => Strict.patch_habitaciones_id stn p b
  | SDeleteHabitacion p => Strict.delete_habitaciones_id p
  end.

(** The requests [habitaciones.js] has a route for. *)
Inductive lenient_request :=
| LGetHabitaciones                                   (* GET /habitaciones *)
| LGetHabitacion (param_id : jsstring)               (* GET /habitaciones/:id *)
| LPostHabitacion (b : payload)                      (* POST /habitaciones *)
| LPutHabitacion (param_id : jsstring) (b : payload) (* PUT /habitaciones/:id *)
| LDeleteHabitacion (param_id : jsstring).           (* DELETE /habitaciones/:id *)

Definition lenient_app (r : lenient_request) : handler :=
  match r with
  | LGetHabitaciones => Lenient.get_habitaciones
  | LGetHabitacion p => Lenient.get_habitaciones_id p
  | LPostHabitacion b => Lenient.post_habitaciones b
  | LPutHabitacion p b => Lenient.put_habitaciones_id p b
  | LDeleteHabitacion p => Lenient.delete_habitaciones_id p
  end.

(** The one store call a lenient request stands for. *)
Definition lenient_call (r : lenient_request) : store_call :=
  match r with
  | LGetHabitaciones => CallSelectAll
  | LGetHabitacion p => CallSelectSingle (Lenient.by_id p)
  | LPostHabitacion b => CallInsertSingle b
  | LPutHabitacion p b => CallUpdateSingle b (Lenient.by_id p)
  | LDeleteHabitacion p => CallDeleteWhere (Lenient.by_id p)
  end.

(** The status a lenient route answers with when its store call reports no
    error, and when it reports one. *)
Definition lenient_success (r : lenient_request) : Z :=
  match r with
  | LPostHabitacion _ => 201
  | LDeleteHabitacion _ => 204
  | _ => 200
  end.

Definition lenient_failure (r : lenient_request) : Z :=
  match r with
  | LGetHabitacion _ => 404
  | _ => 500
  end.

(** The statuses a strict route can answer with. *)
Definition strict_statuses (r : strict_request) : list Z :=
  match r with
  | SGetHabitaciones => [200; 404; 500]
  | SGetHabitacion _ => [200; 400; 404]
  | SPostHabitacion _ => [201; 400; 409; 500]
  | SPatchHabitacion _ _ => [200; 400; 404; 500]
  | SDeleteHabitacion _ => [204; 400; 404; 500]
  end.

Definition is_get (r : strict_request) : bool :=
  match r with
  | SGetHabitaciones | SGetHabitacion _ => true
  | _ => false
  end.

(** Takes a handler apart along the tests it makes and the replies it
    gets. *)
Ltac serve_cases :=
  repeat (autorewrite with run_eqs; cbn [after sent final calls status];
          match goal with
          | |- context [match ?x with _ => _ end] => destruct x eqn:?
          end);
  autorewrite with run_eqs; cbn [after sent final calls status].

(** X11: every route of [habitaciones.js] makes exactly one store call, with
    the id and the body as they came, and answers with its success status or
    with 500 (404 for GET by id); it never answers 400 or 409. *)
Theorem lenient_one_unvalidated_call :
  forall (r : lenient_request) S (st : store S) (s : S),
    let o := run st (lenient_app r) s in
    calls o = [lenient_call r]
    /\ (status (sent o) = lenient_success r
        \/ status (sent o) = lenient_failure r).
Proof.
  intros r S st s o. subst o.
  destruct r; cbn [lenient_app lenient_call lenient_success lenient_failure];
    unfold Lenient.get_habitaciones, Lenient.get_habitaciones_id,
      Lenient.post_habitaciones, Lenient.put_habitaciones_id,
      Lenient.delete_habitaciones_id;
    serve_cases; split; auto.
Qed.

(** X12: a strict request makes at most two store calls; an insert, update
    or delete is only ever the second of two calls, sent right after a
    single-row query (the pre-check), so there is at most one per request;
    a GET makes no such call. *)
Theorem strict_call_discipline :
  forall (stn : jsstring -> number) (r : strict_request)
         S (st : store S) (s : S),
    let o := run st (strict_app stn r) s in
    (List.length (calls o) <= 2)%nat
    /\ existsb is_mutation (removelast (calls o)) = false
    /\ (is_get r = true -> existsb is_mutation (calls o) = false)
    /\ (forall m, In m (calls o) -> is_mutation m = true ->
                  exists f, calls o = [CallSelectSingle f; m]).
Proof.
  intros stn r S st s o. subst o.
  destruct r; cbn [strict_app is_get];
    unfold Strict.get_habitaciones, Strict.get_habitaciones_id,
      Strict.post_habitaciones, Strict.patch_habitaciones_id,
      Strict.delete_habitaciones_id;
    serve_cases; cbn [List.length removelast existsb is_mutation orb In];
    (split; [lia | split; [reflexivity | split; [try reflexivity;
                                                 try discriminate |]]]);
    intros m Hin Hm;
    repeat (destruct Hin as [Hin|Hin]; [subst m; try discriminate Hm|]);
    try contradiction;
    eexists; reflexivity.
Qed.

Lemma strict_call_discipline_witness :
  let o := run Memory.mem_store
             (strict_app Memory.digits_to_number
                (SDeleteHabitacion (str "7"))) Memory.hotel in
  existsb is_mutation
    (calls (run Memory.mem_store
              (strict_app Memory.digits_to_number
                 (SGetHabitacion (str "5"))) Memory.hotel)) = false
  /\ exists f, calls o = [CallSelectSingle f;
                          CallDeleteWhere (Strict.by_id (num 7))].
Proof.
  intros o.
  destruct (strict_call_discipline Memory.digits_to_number
              (SGetHabitacion (str "5")) Memory.mem Memory.mem_store
              Memory.hotel) as (_ & _ & Hget & _).
  destruct (strict_call_discipline Memory.digits_to_number
              (SDeleteHabitacion (str "7")) Memory.mem Memory.mem_store
              Memory.hotel) as (_ & _ & _ & Hmut).
  split; [exact (Hget eq_refl)|].
  apply Hmut; [right; left; reflexivity | reflexivity].
Defined.

(** X13: a strict request answers only with a status of its route: 200, 404
    or 500 for the list; 200, 400 or 404 for GET by id, never 500; 201, 400,
    409 or 500 for POST; 200, 400, 404 or 500 for PATCH; 204, 400, 404 or 500
    for DELETE. *)
Theorem strict_status_of_route :
  forall (stn : jsstring -> number) (r : strict_request)
         S (st : store S) (s : S),
    In (status (sent (run st (strict_app stn r) s))) (strict_statuses r).
Proof.
  intros stn r S st s.
  destruct r; cbn [strict_app strict_statuses];
    unfold Strict.get_habitaciones, Strict.get_habitaciones_id,
      Strict.post_habitaciones, Strict.patch_habitaciones_id,
      Strict.delete_habitaciones_id;
    serve_cases; cbn; tauto.
Qed.

(** X14: when a strict request is answered 400, 404 or 409, no insert,
    update or delete was sent to the store, and whatever part of the store's
    state its queries leave alone, the stored collection, is as before. *)
Theorem strict_client_error_no_mutation :
  forall (stn : jsstring -> number) (r : strict_request)
         S (st : store S) (s : S),
    let o := run st (strict_app stn r) s in
    In (status (sent o)) [400; 404; 409] ->
    existsb is_mutation (calls o) = false
    /\ forall (C : Type) (collection : S -> C),
         (forall s0, collection (snd (select_all st s0)) = collection s0) ->
         (forall f s0, collection (snd (select_single st f s0)) = collection s0) ->
         collection (final o) = collection s.
Proof.
  intros stn r S st s o. subst o.
  destruct r; cbn [strict_app];
    unfold Strict.get_habitaciones, Strict.get_habitaciones_id,
      Strict.post_habitaciones, Strict.patch_habitaciones_id,
      Strict.delete_habitaciones_id;
    serve_cases; cbn [In]; intros Hst;
    try (exfalso; repeat destruct Hst as [Hst|Hst]; try discriminate Hst;
         exact Hst);
    (split; [reflexivity | intros C collection Hall Hone; auto]).
Qed.

Lemma strict_client_error_no_mutation_witness :
  let o := run Memory.mem_store
             (strict_app Memory.digits_to_number
                (SPostHabitacion (Memory.room 101 "suite" 3 700 true)))
             Memory.hotel in
  status (sent o) = 409
  /\ existsb is_mutation (calls o) = false
  /\ Memory.rows (final o) = Memory.rows Memory.hotel.
Proof.
  intros o.
  destruct (strict_client_error_no_mutation Memory.digits_to_number
              (SPostHabitacion (Memory.room 101 "suite" 3 700 true))
              Memory.mem Memory.mem_store Memory.hotel)
    as [Hcalls Hsame].
  - right; right; left. reflexivity.
  - split; [reflexivity | split; [exact Hcalls |]].
    apply (Hsame _ Memory.rows).
    + intros s0. unfold Memory.mem_store, Memory.reading; cbn.
      destruct (Memory.outage s0); reflexivity.
    + intros f s0. unfold Memory.mem_store, Memory.reading; cbn.
      destruct (Memory.outage s0); reflexivity.
Defined.

(** ** Requests in sequence *)

(** What a 201 of the strict POST tells: the body passed the presence check,
    the uniqueness query gave no row, the insert was made and reported no
    error, and the store is in the state the insert left. *)
Lemma post_created_inv S (st : store S) s b :
  let pre := select_single st (by_num_habi b) s in
  let ins := insert_single st b (snd pre) in
  let o := run st (Strict.post_habitaciones b) s in
  status (sent o) = 201 ->
  Strict.missing_field b = false
  /\ data (fst pre) = None
  /\ error (fst ins) = None
  /\ sent o = mk_response 201 (JsonRow (data (fst ins)))
  /\ final o = snd ins.
Proof.
  intros pre ins o. subst o. unfold Strict.post_habitaciones.
  destruct (Strict.missing_field b); [cbn; discriminate|].
  rewrite run_select_single. fold (by_num_habi b). fold pre.
  destruct (data (fst pre)); [cbn; discriminate|].
  rewrite run_insert_single. fold ins.
  destruct (error (fst ins)); [cbn; discriminate|].
  cbn. intros _. repeat split.
Qed.

(** What a 204 of the strict DELETE tells. *)
Lemma delete_done_inv S (st : store S) s param :
  let id := Strict.by_id (parseInt param) in
  let pre := select_single st id s in
  let del := delete_where st id (snd pre) in
  let o := run st (Strict.delete_habitaciones_id param) s in
  status (sent o) = 204 ->
  Strict.id_invalid (parseInt param) = false
  /\ error (fst del) = None
  /\ final o = snd del.
Proof.
  intros id pre del o. subst o. unfold Strict.delete_habitaciones_id.
  destruct (Strict.id_invalid (parseInt param)); [cbn; discriminate|].
  rewrite run_select_single. fold id pre.
  destruct (data (fst pre)); [|cbn; discriminate].
  rewrite run_delete_where. fold del.
  destruct (error (fst del)); [cbn; discriminate|].
  cbn. intros _. repeat split.
Qed.

(** X15: two strict POSTs of the same body in a row.  If the first is
    answered 201 and the store then finds a row by that [num_habi], the
    second is answered 409 and sends no insert: its only store call is the
    uniqueness query. *)
Theorem second_post_conflicts :
  forall S (st : store S) (s : S) (b : payload),
    let pre := select_single st (by_num_habi b) s in
    let ins := insert_single st b (snd pre) in
    let o1 := run st (Strict.post_habitaciones b) s in
    let o2 := run st (Strict.post_habitaciones b) (final o1) in
    status (sent o1) = 201 ->
    data (fst (select_single st (by_num_habi b) (snd ins))) <> None ->
    calls o1 = [CallSelectSingle (by_num_habi b); CallInsertSingle b]
    /\ sent o2 = mk_response 409 (JsonError Strict.msg_ya_existe)
    /\ calls o2 = [CallSelectSingle (by_num_habi b)].
Proof.
  intros S st s b pre ins o1 o2 H201 Hfound.
  destruct (post_created_inv S st s b H201) as (Hm & Hpre & Hins & _ & Hfin).
  fold pre in Hpre. fold pre ins in Hins, Hfin. fold o1 in Hfin.
  split.
  - subst o1. rewrite (post_after_presence b Hm), run_select_single.
    fold pre. rewrite Hpre, run_insert_single. fold ins. rewrite Hins.
    reflexivity.
  - subst o2. rewrite Hfin, (post_after_presence b Hm), run_select_single.
    destruct (data (fst (select_single st (by_num_habi b) (snd ins))));
      [split; reflexivity | contradiction].
Qed.

Lemma second_post_conflicts_witness :
  let b := Memory.room 103 "doble" 2 500 false in
  let o1 := run Memory.mem_store (Strict.post_habitaciones b) Memory.hotel in
  let o2 := run Memory.mem_store (Strict.post_habitaciones b) (final o1) in
  status (sent o1) = 201
  /\ sent o2 = mk_response 409 (JsonError Strict.msg_ya_existe)
  /\ calls o2 = [CallSelectSingle (by_num_habi b)].
Proof.
  intros b o1 o2.
  destruct (second_post_conflicts Memory.mem Memory.mem_store Memory.hotel b
              eq_refl) as (_ & H409 & Hcalls); [discriminate|].
  split; [reflexivity | split; [exact H409 | exact Hcalls]].
Defined.

(** X16: a strict DELETE answered 204, followed by a GET or a second DELETE
    of the same id.  If the store then has no row for that id, both are
    answered 404 "Habitación no encontrada", and the second DELETE sends no
    delete to the store. *)
Theorem delete_then_not_found :
  forall S (st : store S) (s : S) (param : jsstring),
    let id := Strict.by_id (parseInt param) in
    let del := delete_where st id (snd (select_single st id s)) in
    let o := run st (Strict.delete_habitaciones_id param) s in
    status (sent o) = 204 ->
    data (fst (select_single st id (snd del))) = None ->
    sent (run st (Strict.get_habitaciones_id param) (final o)) = not_found
    /\ sent (run st (Strict.delete_habitaciones_id param) (final o))
       = not_found
    /\ calls (run st (Strict.delete_habitaciones_id param) (final o))
       = [CallSelectSingle id].
Proof.
  intros S st s param id del o H204 Hgone.
  destruct (delete_done_inv S st s param H204) as (Hid & _ & Hfin).
  fold id in Hfin. fold del in Hfin. fold o in Hfin. rewrite Hfin.
  rewrite (delete_after_checks param Hid).
  unfold Strict.get_habitaciones_id. rewrite Hid.
  rewrite !run_select_single. fold id. rewrite Hgone.
  destruct (error (fst (select_single st id (snd del)))); repeat split.
Qed.

Lemma delete_then_not_found_witness :
  let o := run Memory.mem_store (Strict.delete_habitaciones_id (str "7"))
             Memory.hotel in
  status (sent o) = 204
  /\ sent (run Memory.mem_store (Strict.get_habitaciones_id (str "7"))
             (final o)) = not_found
  /\ sent (run Memory.mem_store (Strict.delete_habitaciones_id (str "7"))
             (final o)) = not_found.
Proof.
  intros o.
  destruct (delete_then_not_found Memory.mem Memory.mem_store Memory.hotel
              (str "7") eq_refl eq_refl) as (Hget & Hdel & _).
  split; [reflexivity | split; [exact Hget | exact Hdel]].
Defined.

(** X17: a strict POST answered 201 with a row, followed by a GET of that
    row's id written in decimal digits.  If the id is above zero and the
    store then returns that row for its id with no error, the GET is
    answered 200 with the same row as the POST. *)
Theorem post_then_get_same_row :
  forall S (st : store S) (s : S) (b : payload) (row : habitacion)
         (ds : jsstring),
    let ins := insert_single st b
                 (snd (select_single st (by_num_habi b) s)) in
    let o := run st (Strict.post_habitaciones b) s in
    sent o = mk_response 201 (JsonRow (Some row)) ->
    ds <> [] -> forallb is_digit ds = true ->
    digits_value ds = habitacion_id row -> 0 < habitacion_id row ->
    fst (select_single st (Strict.by_id (num (habitacion_id row))) (snd ins))
    = mk_reply (Some row) None ->
    data (fst ins) = Some row
    /\ sent (run st (Strict.get_habitaciones_id ds) (final o))
       = mk_response 200 (JsonRow (Some row)).
Proof.
  intros S st s b row ds ins o Hsent Hne Hd Hval Hpos Hread.
  assert (H201 : status (sent (run st (Strict.post_habitaciones b) s)) = 201)
    by (fold o; rewrite Hsent; reflexivity).
  destruct (post_created_inv S st s b H201) as (_ & _ & _ & Hbody & Hfin).
  fold ins in Hbody, Hfin. fold o in Hbody, Hfin.
  rewrite Hsent in Hbody. injection Hbody as Hrow.
  split; [symmetry; exact Hrow|].
  rewrite Hfin. unfold Strict.get_habitaciones_id.
  rewrite (parseInt_digits ds Hne Hd), Hval, id_invalid_num.
  replace (habitacion_id row <=? 0) with false
    by (symmetry; apply Z.leb_gt; exact Hpos).
  rewrite run_select_single, Hread. reflexivity.
Qed.

Lemma post_then_get_same_row_witness :
  let b := Memory.room 103 "doble" 2 500 true in
  let row := mk_habitacion 8 b in
  let o := run Memory.mem_store (Strict.post_habitaciones b) Memory.hotel in
  sent o = mk_response 201 (JsonRow (Some row))
  /\ sent (run Memory.mem_store (Strict.get_habitaciones_id (str "8"))
             (final o))
     = mk_response 200 (JsonRow (Some row)).
Proof.
  intros b row o.
  split; [reflexivity|].
  apply (post_then_get_same_row Memory.mem Memory.mem_store Memory.hotel b
           row (str "8")).
  - reflexivity.
  - discriminate.
  - reflexivity.
  - reflexivity.
  - reflexivity.
  - reflexivity.
Defined.

(** X18: a strict PATCH whose body has no [num_habi], or has it null, is
    answered 400 "Numero de habitacion invalida!..." whatever the other
    fields are, for every id that passes the id check, and before any store
    call: no update can leave [num_habi] out. *)
Theorem patch_requires_num_habi :
  forall (stn : jsstring -> number) S (st : store S) (s : S)
         (param : jsstring) (b : payload),
    Strict.id_invalid (parseInt param) = false ->
    num_habi b = VUndefined \/ num_habi b = VNull ->
    run st (Strict.patch_habitaciones_id stn param b) s
    = mk_outcome (mk_response 400 (JsonError Strict.msg_num_habi_invalido))
                 s [].
Proof.
  intros stn S st s param b Hid Hn.
  unfold Strict.patch_habitaciones_id. rewrite Hid, patch_body_error_eq.
  destruct Hn as [-> | ->]; reflexivity.
Qed.

Lemma patch_requires_num_habi_witness :
  run Memory.mem_store
    (Strict.patch_habitaciones_id Memory.digits_to_number (str "5")
       (mk_payload VNull (VString (str "suite")) (VNumber (num 4))
                   (VNumber (num 900)) (VBool true)))
    Memory.hotel
  = mk_outcome (mk_response 400 (JsonError Strict.msg_num_habi_invalido))
               Memory.hotel [].
Proof.
  apply (patch_requires_num_habi Memory.digits_to_number Memory.mem
           Memory.mem_store Memory.hotel (str "5")).
  - reflexivity.
  - right. reflexivity.
Defined.
